(** * llm/causallm/quant.py: quantization glue for causal language models

    A shallow embedding of the five functions of [quant.py]
    ([create_qat_model], [apply_shift], [apply_smooth], [apply_ptq],
    [get_ptq_model_config]) and the properties of their dispatch and of the
    order in which they drive the quantization library.

    The numerical work is done by paddle / paddleslim and by the trainer;
    those calls are kept abstract: every call the module makes is handed to
    a handler [lib] over an opaque library state, and is recorded, with its
    outcome, in a log.  Theorems quantify over every handler. *)

From Stdlib Require Import ZArith QArith String List.
From stdpp Require Import base gmap strings list fin_maps.

Local Open Scope Z_scope.
Local Open Scope string_scope.
Local Open Scope list_scope.

(** ** Python values, exceptions and results *)

Module Py.

(** Object identities.  [VNone] is Python's [None]. *)
Inductive value :=
| VNone
| VObj (id : positive).

Inductive exn :=
| ValueError (msg : string)
| NotImplementedError (msg : string)
| AttributeError (msg : string)
| RuntimeError (msg : string).

Inductive result (A : Type) :=
| Ok (a : A)
| Raise (e : exn).
Arguments Ok {A} a.
Arguments Raise {A} e.

Definition is_Raise {A} (r : result A) : bool :=
  match r with Raise _ => true | Ok _ => false end.

(** [x in [a; b; ...]] on [str]: membership by [==]. *)
Definition str_in (x : string) (l : list string) : bool :=
  existsb (String.eqb x) l.

End Py.
Import Py.

(** ** The library objects the module builds *)

Module Paddle.

(** Layer classes used as keys of a [QuantConfig]: the seven this module
    names, and the five of paddle's default replacement table. *)
Inductive LayerType :=
| nn_Linear
| LoRALinear
| QuantedLoRALinear
| ColumnParallelLinear
| RowParallelLinear
| QuantizedColumnParallelLinear
| QuantizedRowParallelLinear
| Stub
| QuanterStub
| nn_Conv2D
| QuantedLinear
| QuantedConv2D.

#[global] Instance LayerType_eq_dec : EqDecision LayerType.
Proof. solve_decision. Defined.

Definition LayerType_code (t : LayerType) : nat :=
  match t with
  | nn_Linear => 0 | LoRALinear => 1 | QuantedLoRALinear => 2
  | ColumnParallelLinear => 3 | RowParallelLinear => 4
  | QuantizedColumnParallelLinear => 5 | QuantizedRowParallelLinear => 6
  | Stub => 7 | QuanterStub => 8 | nn_Conv2D => 9
  | QuantedLinear => 10 | QuantedConv2D => 11
  end%nat.

Definition LayerType_of_code (n : nat) : LayerType :=
  match n with
  | 0 => nn_Linear | 1 => LoRALinear | 2 => QuantedLoRALinear
  | 3 => ColumnParallelLinear | 4 => RowParallelLinear
  | 5 => QuantizedColumnParallelLinear | 6 => QuantizedRowParallelLinear
  | 7 => Stub | 8 => QuanterStub | 9 => nn_Conv2D
  | 10 => QuantedLinear | _ => QuantedConv2D
  end%nat.

#[global] Instance LayerType_countable : Countable LayerType.
Proof.
  apply (inj_countable' LayerType_code LayerType_of_code).
  by intros [].
Defined.

(** The quanter layer class handed to [PACTQuanter(quanter=...)]. *)
Inductive QuanterLayer :=
| FakeQuanterWithAbsMaxObserverLayer.

(** Quanter and observer factories, each with the keyword arguments the
    module passes. *)
Inductive Quanter :=
| PACTQuanter (quanter : QuanterLayer) (init_value : Z) (dtype : string)
| FakeQuanterChannelWiseAbsMaxObserver (bit_length : Z) (dtype : string)
| AbsmaxObserver
| AbsMaxChannelWiseWeightObserver.

Record SingleLayerConfig := {
  activation : option Quanter;
  weight : option Quanter
}.

(** Modelled from the spec: [QuantConfig] is paddle's class and is not
    under src/.  The spec's data model describes it as "a mapping from
    layer-type (or list of layer-types) to an (activation-quantizer,
    weight-quantizer) pair, plus a mapping from original layer class to
    its quantized replacement class"; [qat_layer_mapping] is that second
    mapping. *)
Record QuantConfig := {
  global_config : SingleLayerConfig;
  type2config : gmap LayerType SingleLayerConfig;
  qat_layer_mapping : gmap LayerType LayerType
}.

(** The replacements every paddle [QuantConfig] starts from
    ([DEFAULT_QAT_LAYER_MAPPINGS] of paddle.quantization, not under src/):
    stubs, [nn.Linear] and [nn.Conv2D] each have a quantized class. *)
Definition DEFAULT_QAT_LAYER_MAPPINGS : gmap LayerType LayerType :=
  {[ Stub := QuanterStub;
     nn_Linear := QuantedLinear;
     nn_Conv2D := QuantedConv2D ]}.

(** [QuantConfig(activation=a, weight=w)]: no per-type configuration yet,
    and a copy of the default replacements. *)
Definition QuantConfig_new (a w : option Quanter) : QuantConfig :=
  {| global_config := {| activation := a; weight := w |};
     type2config := ∅;
     qat_layer_mapping := DEFAULT_QAT_LAYER_MAPPINGS |}.

(** [q_config.add_qat_layer_mapping(source, target)] *)
Definition add_qat_layer_mapping (source target : LayerType)
    (c : QuantConfig) : QuantConfig :=
  {| global_config := global_config c;
     type2config := type2config c;
     qat_layer_mapping := <[source := target]> (qat_layer_mapping c) |}.

(** [q_config.add_type_config(layer_type, activation=a, weight=w)] with a
    single layer class. *)
Definition add_type_config (layer_type : LayerType)
    (a w : option Quanter) (c : QuantConfig) : QuantConfig :=
  {| global_config := global_config c;
     type2config :=
       <[layer_type := {| activation := a; weight := w |}]> (type2config c);
     qat_layer_mapping := qat_layer_mapping c |}.

(** [q_config.add_type_config([t1, t2, ...], activation=a, weight=w)]:
    the list form registers the pair for each class in turn. *)
Definition add_type_config_list (layer_types : list LayerType)
    (a w : option Quanter) (c : QuantConfig) : QuantConfig :=
  fold_left (fun acc t => add_type_config t a w acc) layer_types c.

Inductive Sampler :=
| EMASampler
| MultiStepSampler.

(** [PieceWiseSearch(...)] with its keyword arguments.  The float
    literals of the source are kept as the decimals they are written as. *)
Record PieceWiseSearch := {
  k_piece : Z;
  bits_length : Z;
  search_piece : bool;
  search_alpha_min : Q;
  search_alpha_max : Q;
  search_scale_min : Q;
  search_scale_max : Q;
  weight_quant_method : string;
  act_quant_method : string
}.

End Paddle.
Import Paddle.

(** [quant_args]: the configuration fields read by this module. *)
Record QuantArgs := {
  qat_type : string;
  shift_sampler : string;
  shift_all_linears : bool;
  shift_step : Z;
  smooth_sampler : string;
  smooth_piecewise_search : bool;
  smooth_k_piece : Z;
  smooth_search_piece : bool;
  smooth_all_linears : bool;
  smooth_step : Z;
  ptq_step : Z
}.

(** ** Calls into the library and the trainer *)

Inductive Call :=
| QAT_quantize (q_config : QuantConfig) (model : value) (inplace : bool)
| PTQ_quantize (q_config : QuantConfig) (model : value) (inplace : bool)
| PTQ_convert (q_config : QuantConfig) (model : value) (inplace : bool)
| Shift_init (model : value) (model_config : gmap string bool)
    (sample_function : option Sampler) (shift_all_linears : bool)
| Smooth_init (model : value) (model_config : gmap string bool) (alpha : Q)
    (smooth_all_linears : bool) (sample_function : option Sampler)
    (search_function : option PieceWiseSearch)
| Trainer_ptq_loop (self_model : value) (ptq_dataloader : value)
    (description : string) (max_eval_iters : Z)
| update_weight (transform : value).

(** A log entry: the call and how it ended. *)
Definition Event : Type := Call * result value.

Definition is_update_weight (c : Call) : bool :=
  match c with update_weight _ => true | _ => false end.

Definition is_ptq_loop (c : Call) : bool :=
  match c with Trainer_ptq_loop _ _ _ _ => true | _ => false end.

(** ** The state the module runs against

    [trainer_model] is the [model] attribute of the trainer object every
    [apply_*] function receives; only this module assigns it.  [ext] is
    what the library and the trainer own (model weights, hooks, observers).
    A handler answers a call from [ext]: it may change [ext] and may raise.
    [trainer.ptq_loop] runs on [trainer.model], so its call carries the
    object that attribute holds when the loop starts ([self_model]). *)

Record World (X : Type) := {
  trainer_model : value;
  ext : X;
  log : list Event
}.
Arguments trainer_model {X} _.
Arguments ext {X} _.
Arguments log {X} _.

Definition Handler (X : Type) : Type := Call -> X -> result value * X.

(** State-and-exception monad over [World]. *)
Definition M (X A : Type) : Type := World X -> result A * World X.

Definition ret {X A} (a : A) : M X A := fun w => (Ok a, w).

Definition raise {X A} (e : exn) : M X A := fun w => (Raise e, w).

Definition bind {X A B} (m : M X A) (k : A -> M X B) : M X B :=
  fun w =>
    match m w with
    | (Ok a, w') => k a w'
    | (Raise e, w') => (Raise e, w')
    end.

Notation "x <- m ;; k" := (bind m (fun x => k))
  (at level 100, m at next level, right associativity).

(** An external call: run the handler, append the call and its outcome. *)
Definition call {X} (lib : Handler X) (c : Call) : M X value :=
  fun w =>
    let (r, x) := lib c (ext w) in
    (r, {| trainer_model := trainer_model w; ext := x;
           log := log w ++ [(c, r)] |}).

(** [trainer.model] *)
Definition get_trainer_model {X} : M X value :=
  fun w => (Ok (trainer_model w), w).

(** [trainer.model = v] *)
Definition set_trainer_model {X} (v : value) : M X unit :=
  fun w =>
    (Ok tt, {| trainer_model := v; ext := ext w; log := log w |}).

(** The same for code without effects. *)
Definition rbind {A B} (r : result A) (k : A -> result B) : result B :=
  match r with
  | Ok a => k a
  | Raise e => Raise e
  end.

Notation "x <-? r ;; k" := (rbind r (fun x => k))
  (at level 100, r at next level, right associativity).

(** ** quant.py *)

Definition qat_type_error : string :=
  "qat_type should be one of ['A8W8', 'W4', 'A8W4']".

Section Quant.

Context {X : Type}.
Variable lib : Handler X.

(** Lines 41-63.  The function-local import of line 43 is taken to
    succeed. *)
Definition create_qat_model (quant_args : QuantArgs) (model : value)
    (dtype : string) : M X value :=
  let q_config := QuantConfig_new None None in
  let q_config :=
    add_qat_layer_mapping LoRALinear QuantedLoRALinear q_config in
  quanters <-
    (if qat_type quant_args =? "A8W8" then
       ret (Some (PACTQuanter FakeQuanterWithAbsMaxObserverLayer 20 dtype),
            Some (FakeQuanterChannelWiseAbsMaxObserver 8 "float32"))
     else if qat_type quant_args =? "W4" then
       ret (None,
            Some (FakeQuanterChannelWiseAbsMaxObserver 4 "float32"))
     else if qat_type quant_args =? "A8W4" then
       ret (Some (PACTQuanter FakeQuanterWithAbsMaxObserverLayer 20 dtype),
            Some (FakeQuanterChannelWiseAbsMaxObserver 4 "float32"))
     else
       raise (ValueError qat_type_error)) ;;
  let '(activation, weight) := quanters in
  let q_config := add_type_config LoRALinear activation weight q_config in
  let q_config := add_type_config nn_Linear activation weight q_config in
  model <- call lib (QAT_quantize q_config model true) ;;
  ret model.

(** Lines 66-81.  [trainer] is the trainer of the world; [del] only drops
    local names. *)
Definition apply_shift (quant_args : QuantArgs) (ptq_dataloader : value)
    (ptq_model_config : gmap string bool) : M X value :=
  let shift_sampler :=
    if shift_sampler quant_args =? "ema" then Some EMASampler else None in
  m <- get_trainer_model ;;
  shift <- call lib (Shift_init m ptq_model_config shift_sampler
                       (shift_all_linears quant_args)) ;;
  m <- get_trainer_model ;;
  _ <- call lib (Trainer_ptq_loop m ptq_dataloader "Shift"
                   (shift_step quant_args)) ;;
  _ <- call lib (update_weight shift) ;;
  ret VNone.

(** Lines 84-115, on the trainer of the world. *)
Definition apply_smooth (quant_args : QuantArgs) (ptq_dataloader : value)
    (ptq_model_config : gmap string bool) : M X value :=
  let smooth_sampler :=
    if smooth_sampler quant_args =? "multi_step"
    then Some MultiStepSampler else None in
  let search_func :=
    if smooth_piecewise_search quant_args then
      Some {| k_piece := smooth_k_piece quant_args;
              bits_length := 8;
              search_piece := smooth_search_piece quant_args;
              search_alpha_min := 0.2;
              search_alpha_max := 0.8;
              search_scale_min := 1.0;
              search_scale_max := 5.0;
              weight_quant_method := "abs_max_channel_wise";
              act_quant_method := "abs_max" |}
    else None in
  m <- get_trainer_model ;;
  smooth <- call lib (Smooth_init m ptq_model_config 0.5
                        (smooth_all_linears quant_args) smooth_sampler
                        search_func) ;;
  m <- get_trainer_model ;;
  _ <- call lib (Trainer_ptq_loop m ptq_dataloader "Smooth"
                   (smooth_step quant_args)) ;;
  _ <- call lib (update_weight smooth) ;;
  ret VNone.

(** Lines 118-137, on the trainer of the world.  [ptq] holds [q_config];
    both of its calls carry it. *)
Definition apply_ptq (quant_args : QuantArgs) (ptq_dataloader : value)
    : M X value :=
  let q_config := QuantConfig_new None None in
  let act_quanter := AbsmaxObserver in
  let weight_quanter := AbsMaxChannelWiseWeightObserver in
  let q_config :=
    add_qat_layer_mapping ColumnParallelLinear
      QuantizedColumnParallelLinear q_config in
  let q_config :=
    add_qat_layer_mapping RowParallelLinear
      QuantizedRowParallelLinear q_config in
  let q_config :=
    add_type_config_list
      [nn_Linear; ColumnParallelLinear; RowParallelLinear;
       QuantedLoRALinear]
      (Some act_quanter) (Some weight_quanter) q_config in
  m <- get_trainer_model ;;
  m <- call lib (PTQ_quantize q_config m true) ;;
  _ <- set_trainer_model m ;;
  m <- get_trainer_model ;;
  _ <- call lib (Trainer_ptq_loop m ptq_dataloader "PTQ"
                   (ptq_step quant_args)) ;;
  m <- get_trainer_model ;;
  m <- call lib (PTQ_convert q_config m true) ;;
  _ <- set_trainer_model m ;;
  ret VNone.

End Quant.

(** ** get_ptq_model_config *)

#[local] Set Warnings "-register-all".

(** What [get_ptq_model_config] reads of its argument: whether it is a
    [PrefixModelForCausalLM], its own [base_model_prefix] attribute, its
    [model] attribute, and [str(model)].  An attribute the object does not
    have is [None].  [PrefixModelForCausalLM] is declared outside this
    file; lines 141-142 go through [model.model] for the prefix, so what the
    wrapper itself carries under [base_model_prefix] is left to the
    instance. *)
Inductive PyModel := mk_PyModel {
  is_PrefixModelForCausalLM : bool;
  attr_base_model_prefix : option string;
  attr_model : option PyModel;
  str_of : string
}.

(** [obj.name]: a missing attribute raises. *)
Definition getattr {A} (name : string) (a : option A) : result A :=
  match a with
  | Some v => Ok v
  | None => Raise (AttributeError name)
  end.

Definition unknown_prefix_error (p : string) : string :=
  "Unknown base_model_prefix: " +:+ p +:+
  ". Supported base_model_prefix list: chatglm, bloom, llama.".

Definition not_supported_error (model : PyModel) : string :=
  str_of model +:+ " does not support Shift or Smooth.".

(** Lines 140-158. *)
Definition get_ptq_model_config (model : PyModel)
    : result (gmap string bool) :=
  base_model_prefix <-?
    (if is_PrefixModelForCausalLM model then
       inner <-? getattr "model" (attr_model model) ;;
       getattr "base_model_prefix" (attr_base_model_prefix inner)
     else
       getattr "base_model_prefix" (attr_base_model_prefix model)) ;;
  model_config <-?
    (if str_in base_model_prefix ["chatglm"] then
       Raise (NotImplementedError (not_supported_error model))
     else if base_model_prefix =? "chatglm_v2" then
       Ok {[ "fused_qkv" := false; "parallel_ffn" := false ]}
     else if base_model_prefix =? "bloom" then
       Ok {[ "fused_qkv" := true; "parallel_ffn" := false ]}
     else if base_model_prefix =? "llama" then
       Ok {[ "fused_qkv" := false; "parallel_ffn" := true ]}
     else
       p <-? getattr "base_model_prefix" (attr_base_model_prefix model) ;;
       Raise (ValueError (unknown_prefix_error p))) ;;
  Ok model_config.

(** Lines 141-144 on their own: the value bound to the local
    [base_model_prefix], on which lines 146-152 dispatch. *)
Definition resolved_base_model_prefix (model : PyModel) : result string :=
  if is_PrefixModelForCausalLM model then
    inner <-? getattr "model" (attr_model model) ;;
    getattr "base_model_prefix" (attr_base_model_prefix inner)
  else
    getattr "base_model_prefix" (attr_base_model_prefix model).

(** ** Vocabulary of the properties *)

(** The three literal modes of [qat_type]. *)
Inductive QatType := A8W8 | W4 | A8W4.

Definition qat_name (t : QatType) : string :=
  match t with
  | A8W8 => "A8W8"
  | W4 => "W4"
  | A8W4 => "A8W4"
  end.

Definition valid_qat_types : list string := ["A8W8"; "W4"; "A8W4"].

(** The documented pairing, written from the documentation and not from the
    code: activations go through PACT (over the abs-max fake quanter,
    initial value 20) whenever the mode quantizes activations, and weights
    through the channel-wise abs-max fake quanter at the mode's width. *)
Definition documented_activation (t : QatType) (dtype : string)
    : option Quanter :=
  match t with
  | A8W8 | A8W4 =>
      Some (PACTQuanter FakeQuanterWithAbsMaxObserverLayer 20 dtype)
  | W4 => None
  end.

Definition documented_weight_bits (t : QatType) : Z :=
  match t with
  | A8W8 => 8
  | W4 | A8W4 => 4
  end.

Definition documented_pairing (t : QatType) (dtype : string)
    : SingleLayerConfig :=
  {| activation := documented_activation t dtype;
     weight := Some (FakeQuanterChannelWiseAbsMaxObserver
                       (documented_weight_bits t) "float32") |}.

(** The families [get_ptq_model_config] has a record for. *)
Definition supported_prefixes : list string :=
  ["chatglm_v2"; "bloom"; "llama"].

(** How a calibration pass may unfold: [after] extends [before] by the
    constructor call, then the loop, then [update_weight] on the object the
    constructor returned; a call that raises ends the pass. *)
Definition calibration_pass (before after : list Event)
    (out : result value) (init loop : Call) : Prop :=
  (exists e, after = before ++ [(init, Raise e)] /\ out = Raise e) \/
  (exists t e,
     after = before ++ [(init, Ok t); (loop, Raise e)] /\ out = Raise e) \/
  (exists t v e,
     after = before ++ [(init, Ok t); (loop, Ok v);
                        (update_weight t, Raise e)] /\ out = Raise e) \/
  (exists t v u,
     after = before ++ [(init, Ok t); (loop, Ok v); (update_weight t, Ok u)]
     /\ out = Ok VNone).

(** In the calls [evs], every [update_weight] comes after a [loop] that
    returned. *)
Definition update_weight_after (loop : Call) (evs : list Event) : Prop :=
  forall (i : nat) c r,
    evs !! i = Some (c, r) -> is_update_weight c = true ->
    exists (j : nat) v, (j < i)%nat /\ evs !! j = Some (loop, Ok v).

(** The contract of [inplace=True]: a [quantize] or [convert] that returns
    hands back the object it was given. *)
Definition inplace_contract {X} (lib : Handler X) : Prop :=
  forall c x r x',
    lib c x = (Ok r, x') ->
    match c with
    | QAT_quantize _ m true | PTQ_quantize _ m true
    | PTQ_convert _ m true => r = m
    | _ => True
    end.

(** The configuration handed to [QAT] in mode [t]. *)
Definition qat_config (t : QatType) (dtype : string) : QuantConfig :=
  let pair := documented_pairing t dtype in
  add_type_config nn_Linear (activation pair) (weight pair)
    (add_type_config LoRALinear (activation pair) (weight pair)
       (add_qat_layer_mapping LoRALinear QuantedLoRALinear
          (QuantConfig_new None None))).

(** The configuration [apply_ptq] builds at lines 119-128. *)
Definition ptq_config : QuantConfig :=
  add_type_config_list
    [nn_Linear; ColumnParallelLinear; RowParallelLinear; QuantedLoRALinear]
    (Some AbsmaxObserver) (Some AbsMaxChannelWiseWeightObserver)
    (add_qat_layer_mapping RowParallelLinear QuantizedRowParallelLinear
       (add_qat_layer_mapping ColumnParallelLinear
          QuantizedColumnParallelLinear (QuantConfig_new None None))).

(** The model object a call works on. *)
Definition call_model (c : Call) : option value :=
  match c with
  | QAT_quantize _ m _ | PTQ_quantize _ m _ | PTQ_convert _ m _
  | Shift_init m _ _ _ | Smooth_init m _ _ _ _ _
  | Trainer_ptq_loop m _ _ _ => Some m
  | update_weight _ => None
  end.

(** How [apply_ptq] may unfold from a trainer holding [m0]: quantize, then
    the loop, then convert, each on the object [trainer.model] holds at that
    point; [final] is what [trainer.model] holds at the end. *)
Definition ptq_pass (before after : list Event) (out : result value)
    (final : value) (q_config : QuantConfig) (m0 dl : value) (step : Z)
    : Prop :=
  (exists e,
     after = before ++ [(PTQ_quantize q_config m0 true, Raise e)] /\
     out = Raise e /\ final = m0) \/
  (exists m1 e,
     after = before ++ [(PTQ_quantize q_config m0 true, Ok m1);
                        (Trainer_ptq_loop m1 dl "PTQ" step, Raise e)] /\
     out = Raise e /\ final = m1) \/
  (exists m1 v e,
     after = before ++ [(PTQ_quantize q_config m0 true, Ok m1);
                        (Trainer_ptq_loop m1 dl "PTQ" step, Ok v);
                        (PTQ_convert q_config m1 true, Raise e)] /\
     out = Raise e /\ final = m1) \/
  (exists m1 v m2,
     after = before ++ [(PTQ_quantize q_config m0 true, Ok m1);
                        (Trainer_ptq_loop m1 dl "PTQ" step, Ok v);
                        (PTQ_convert q_config m1 true, Ok m2)] /\
     out = Ok VNone /\ final = m2).

(** The records of the three supported families. *)
Definition chatglm_v2_config : gmap string bool :=
  {[ "fused_qkv" := false; "parallel_ffn" := false ]}.

Definition bloom_config : gmap string bool :=
  {[ "fused_qkv" := true; "parallel_ffn" := false ]}.

Definition llama_config : gmap string bool :=
  {[ "fused_qkv" := false; "parallel_ffn" := true ]}.

(** ** A library to run the module against

    Quantization works in place and returns its argument, a transform's
    constructor returns a fresh object, loops and weight updates return
    [None]; [ext] is the next free object identity. *)
Definition inplace_lib : Handler positive :=
  fun c next =>
    match c with
    | QAT_quantize _ m _ | PTQ_quantize _ m _ | PTQ_convert _ m _ =>
        (Ok m, next)
    | Shift_init _ _ _ _ | Smooth_init _ _ _ _ _ _ =>
        (Ok (VObj next), Pos.succ next)
    | Trainer_ptq_loop _ _ _ _ | update_weight _ => (Ok VNone, next)
    end.

(** A library whose calibration loop fails. *)
Definition failing_loop_lib : Handler positive :=
  fun c next =>
    match c with
    | Trainer_ptq_loop _ _ _ _ => (Raise (RuntimeError "loop"), next)
    | _ => inplace_lib c next
    end.

Definition demo_args (t : string) : QuantArgs :=
  {| qat_type := t;
     shift_sampler := "ema"; shift_all_linears := true; shift_step := 8;
     smooth_sampler := "multi_step"; smooth_piecewise_search := true;
     smooth_k_piece := 3; smooth_search_piece := false;
     smooth_all_linears := true; smooth_step := 8;
     ptq_step := 8 |}.

Definition demo_world : World positive :=
  {| trainer_model := VObj 1; ext := 10%positive; log := [] |}.

Definition demo_model_config : gmap string bool :=
  {[ "fused_qkv" := false; "parallel_ffn" := true ]}.

Definition plain_model (prefix : string) : PyModel :=
  {| is_PrefixModelForCausalLM := false;
     attr_base_model_prefix := Some prefix;
     attr_model := None;
     str_of := prefix |}.

(** A [PrefixModelForCausalLM] around [inner]; [own] is the wrapper's own
    [base_model_prefix] attribute, when it has one. *)
Definition prefix_model (own : option string) (inner : PyModel) : PyModel :=
  {| is_PrefixModelForCausalLM := true;
     attr_base_model_prefix := own;
     attr_model := Some inner;
     str_of := "PrefixModelForCausalLM" |}.

(** The configuration a call carries. *)
Definition call_config (c : Call) : option QuantConfig :=
  match c with
  | QAT_quantize q _ _ | PTQ_quantize q _ _ | PTQ_convert q _ _ => Some q
  | _ => None
  end.

(** The [description] of a calibration loop. *)
Definition loop_description (ev : Event) : option string :=
  match fst ev with
  | Trainer_ptq_loop _ _ description _ => Some description
  | _ => None
  end.

(** What a call does. *)
Inductive CallKind := Construct | Loop | UpdateWeight | Quantize | Convert.

Definition call_kind (ev : Event) : CallKind :=
  match fst ev with
  | QAT_quantize _ _ _ | PTQ_quantize _ _ _ => Quantize
  | PTQ_convert _ _ _ => Convert
  | Shift_init _ _ _ _ | Smooth_init _ _ _ _ _ _ => Construct
  | Trainer_ptq_loop _ _ _ _ => Loop
  | update_weight _ => UpdateWeight
  end.

(** The call works on model object [m], or on no model at all. *)
Definition on_model (m : value) (ev : Event) : Prop :=
  match call_model (fst ev) with
  | Some m' => m' = m
  | None => True
  end.

(** The calls made between two worlds. *)
Definition new_events {X} (w w' : World X) : list Event :=
  drop (length (log w)) (log w').

(** The events [evs] are the handler's answers: each call was put to [lib]
    in the library state the call before it left, starting from [x], each
    logged outcome is what [lib] answered, and [x'] is the state the last
    call left. *)
Fixpoint answered {X} (lib : Handler X) (x : X) (evs : list Event) (x' : X)
    : Prop :=
  match evs with
  | [] => x' = x
  | (c, r) :: evs =>
      exists x1, lib c x = (r, x1) /\ answered lib x1 evs x'
  end.

(** A call that raised is the last call of the run and its exception is the
    run's outcome; a run that raised did so in its last call. *)
Definition raise_ends_run (evs : list Event) (out : result value) : Prop :=
  (forall (i : nat) c e,
     evs !! i = Some (c, Raise e) ->
     S i = length evs /\ out = Raise e) /\
  (forall e, out = Raise e -> exists c, last evs = Some (c, Raise e)).

(** What a run of calibration stages with loop descriptions [descrs] and
    calls of kinds [kinds] does to the world: [trainer.model] is as before;
    the calls added are the handler's answers from the library state of [w]
    to that of [w'], all on the model the trainer holds, at most three per
    stage; a call that raises ends the run; the calls made are the first of
    [kinds] and the loops that ran the first of [descrs], in order, and all
    of them, with three calls per stage, when the run returned. *)
Definition stages_summary {X} (lib : Handler X) (w w' : World X)
    (out : result value) (descrs : list string) (kinds : list CallKind)
    : Prop :=
  trainer_model w' = trainer_model w /\
  exists evs,
    log w' = log w ++ evs /\
    answered lib (ext w) evs (ext w') /\
    raise_ends_run evs out /\
    Forall (on_model (trainer_model w)) evs /\
    (length evs <= 3 * length descrs)%nat /\
    omap loop_description evs `prefix_of` descrs /\
    call_kind <$> evs `prefix_of` kinds /\
    (forall v, out = Ok v ->
     omap loop_description evs = descrs /\
     call_kind <$> evs = kinds /\
     length evs = (3 * length descrs)%nat).

(** The observer pair [apply_ptq] registers. *)
Definition ptq_observers : SingleLayerConfig :=
  {| activation := Some AbsmaxObserver;
     weight := Some AbsMaxChannelWiseWeightObserver |}.

(** The four prefixes [get_ptq_model_config] has a branch for. *)
Definition known_prefixes : list string := "chatglm" :: supported_prefixes.

(** A library that ignores [inplace]: quantizing or converting returns a
    fresh object. *)
Definition copying_lib : Handler positive :=
  fun c next =>
    match c with
    | QAT_quantize _ _ _ | PTQ_quantize _ _ _ | PTQ_convert _ _ _ =>
        (Ok (VObj next), Pos.succ next)
    | _ => inplace_lib c next
    end.

(** ** Properties of [create_qat_model] *)

Lemma valid_qat_types_spec (s : string) :
  s ∈ valid_qat_types <-> exists t, s = qat_name t.
Proof.
  unfold valid_qat_types. rewrite !elem_of_cons, elem_of_nil. split.
  - intros [-> | [-> | [-> | []]]];
      [by exists A8W8 | by exists W4 | by exists A8W4].
  - intros [[] ->]; simpl; tauto.
Qed.

Lemma invalid_qat_type_eqb (s : string) :
  s ∉ valid_qat_types ->
  (s =? "A8W8") = false /\ (s =? "W4") = false /\ (s =? "A8W4") = false.
Proof.
  unfold valid_qat_types. rewrite !not_elem_of_cons.
  intros (H1 & H2 & H3 & _). by rewrite !String.eqb_neq.
Qed.

Section CreateQatModel.

Context {X : Type}.
Variable lib : Handler X.

Lemma bind_call_ret (c : Call) (w : World X) :
  (v <- call lib c ;; ret v) w = call lib c w.
Proof.
  unfold bind, call, ret. by destruct (lib c (ext w)) as [[v | e] x].
Qed.

Lemma create_qat_model_valid (t : QatType) qa model dtype (w : World X) :
  qat_type qa = qat_name t ->
  create_qat_model lib qa model dtype w
  = call lib (QAT_quantize (qat_config t dtype) model true) w.
Proof.
  intros Ht. unfold create_qat_model. rewrite Ht.
  destruct t; simpl qat_name; cbn [String.eqb Ascii.eqb Bool.eqb];
    unfold bind at 1, ret at 1; apply bind_call_ret.
Qed.

Lemma create_qat_model_invalid qa model dtype (w : World X) :
  qat_type qa ∉ valid_qat_types ->
  create_qat_model lib qa model dtype w
  = (Raise (ValueError qat_type_error), w).
Proof.
  intros (E1 & E2 & E3)%invalid_qat_type_eqb.
  unfold create_qat_model. by rewrite E1, E2, E3.
Qed.

Lemma log_call (c : Call) (w : World X) :
  log (snd (call lib c w)) = log w ++ [(c, fst (call lib c w))].
Proof. unfold call. by destruct (lib c (ext w)). Qed.

(** C1.  In each of the three modes of [qat_type], [create_qat_model]
    makes exactly one library call, [QAT(q_config).quantize(model,
    inplace=True)], and the [q_config] it hands over registers the
    documented pair for both [LoRALinear] and [nn.Linear] and for no other
    layer type: PACT over the abs-max fake quanter with initial value 20
    (or no activation quanter in mode W4) and the channel-wise abs-max
    fake quanter with 8 bits (A8W8) or 4 bits (W4, A8W4). *)
Theorem create_qat_model_pairing (t : QatType) qa model dtype
    (w : World X) :
  qat_type qa = qat_name t ->
  exists q_config r,
    log (snd (create_qat_model lib qa model dtype w))
    = log w ++ [(QAT_quantize q_config model true, r)] /\
    type2config q_config !! LoRALinear = Some (documented_pairing t dtype) /\
    type2config q_config !! nn_Linear = Some (documented_pairing t dtype) /\
    dom (type2config q_config) = {[ LoRALinear; nn_Linear ]} /\
    documented_pairing t dtype
    = match t with
      | A8W8 =>
          {| activation :=
               Some (PACTQuanter FakeQuanterWithAbsMaxObserverLayer 20
                       dtype);
             weight :=
               Some (FakeQuanterChannelWiseAbsMaxObserver 8 "float32") |}
      | W4 =>
          {| activation := None;
             weight :=
               Some (FakeQuanterChannelWiseAbsMaxObserver 4 "float32") |}
      | A8W4 =>
          {| activation :=
               Some (PACTQuanter FakeQuanterWithAbsMaxObserverLayer 20
                       dtype);
             weight :=
               Some (FakeQuanterChannelWiseAbsMaxObserver 4 "float32") |}
      end.
Proof.
  intros Ht. exists (qat_config t dtype). eexists.
  rewrite (create_qat_model_valid t) by done.
  split; [apply log_call |].
  unfold qat_config, add_type_config; cbn [type2config].
  split; [| split; [| split]].
  - rewrite lookup_insert_ne by done. rewrite lookup_insert_eq.
    by destruct (documented_pairing t dtype).
  - rewrite lookup_insert_eq. by destruct (documented_pairing t dtype).
  - rewrite !dom_insert_L. cbn [type2config add_qat_layer_mapping
      QuantConfig_new]. set_solver.
  - by destruct t.
Qed.

(** C2.  [create_qat_model] raises its own [ValueError] exactly when
    [qat_type] is none of "A8W8", "W4", "A8W4".  Outside the set it
    raises and leaves the world as it was; inside the set the dispatch
    does not raise: the run goes on to [qat.quantize], and its outcome is
    whatever that call gives. *)
Theorem create_qat_model_raises_iff qa model dtype (w : World X) :
  let out := create_qat_model lib qa model dtype w in
  (qat_type qa ∉ valid_qat_types ->
     out = (Raise (ValueError qat_type_error), w)) /\
  (qat_type qa ∈ valid_qat_types ->
     exists q_config,
       out = call lib (QAT_quantize q_config model true) w /\
       log (snd out)
       = log w ++ [(QAT_quantize q_config model true, fst out)]) /\
  ((fst out = Raise (ValueError qat_type_error) /\ log (snd out) = log w)
   <-> qat_type qa ∉ valid_qat_types).
Proof.
  cbv zeta. split; [apply create_qat_model_invalid |].
  assert (Hvalid : qat_type qa ∈ valid_qat_types ->
    exists q_config,
      create_qat_model lib qa model dtype w
      = call lib (QAT_quantize q_config model true) w /\
      log (snd (create_qat_model lib qa model dtype w))
      = log w ++ [(QAT_quantize q_config model true,
                   fst (create_qat_model lib qa model dtype w))]).
  { intros [t Ht]%valid_qat_types_spec. exists (qat_config t dtype).
    rewrite (create_qat_model_valid t) by done.
    split; [done | apply log_call]. }
  split; [exact Hvalid |]. split.
  - intros [_ Hlog] Hin. destruct (Hvalid Hin) as (c & _ & Hlog').
    rewrite Hlog in Hlog'.
    apply (f_equal length) in Hlog'. rewrite length_app in Hlog'.
    simpl in Hlog'. lia.
  - intros Hnot. by rewrite create_qat_model_invalid.
Qed.

(** C9.  On a [qat_type] outside the three modes [create_qat_model]
    raises with the world untouched: the library state that holds the
    model is the one it started from and the log has no new call, so
    [qat.quantize] was never reached. *)
Theorem create_qat_model_invalid_untouched qa model dtype (w : World X) :
  qat_type qa ∉ valid_qat_types ->
  is_Raise (fst (create_qat_model lib qa model dtype w)) = true /\
  snd (create_qat_model lib qa model dtype w) = w /\
  ext (snd (create_qat_model lib qa model dtype w)) = ext w /\
  log (snd (create_qat_model lib qa model dtype w)) = log w.
Proof.
  intros Hnot. by rewrite create_qat_model_invalid.
Qed.

End CreateQatModel.

(** ** Properties of the calibration passes *)

Lemma calibration_pass_update_weight_after before after out init loop :
  is_update_weight init = false ->
  is_update_weight loop = false ->
  calibration_pass before after out init loop ->
  update_weight_after loop (drop (length before) after).
Proof.
  intros Hinit Hloop Hpass i c r Hi Hc.
  destruct Hpass as [(e & -> & _) | [(t & e & -> & _) |
    [(t & v & e & -> & _) | (t & v & u & -> & _)]]];
    rewrite drop_app_length in Hi;
    destruct i as [| [| [| i]]]; simplify_eq/=; try congruence;
    exists 1%nat, v; rewrite drop_app_length; (split; [lia | done]).
Qed.

Section Calibration.

Context {X : Type}.
Variable lib : Handler X.

Ltac run_call :=
  match goal with
  | |- context [lib ?c ?x] =>
      let E := fresh "E" in
      destruct (lib c x) as [[? | ?] ?] eqn:E; cbn -[String.eqb]
  end.

Ltac pass_case :=
  rewrite <- ?app_assoc; cbn [app];
  first
    [ left; eexists; split; reflexivity
    | right; left; do 2 eexists; split; reflexivity
    | right; right; left; do 3 eexists; split; reflexivity
    | right; right; right; do 3 eexists; split; reflexivity ].

Lemma apply_shift_pass qa dl cfg (w : World X) :
  calibration_pass (log w) (log (snd (apply_shift lib qa dl cfg w)))
    (fst (apply_shift lib qa dl cfg w))
    (Shift_init (trainer_model w) cfg
       (if shift_sampler qa =? "ema" then Some EMASampler else None)
       (shift_all_linears qa))
    (Trainer_ptq_loop (trainer_model w) dl "Shift" (shift_step qa)).
Proof.
  unfold apply_shift, bind, call, get_trainer_model, ret.
  cbn -[String.eqb].
  run_call; [run_call; [run_call |] |]; pass_case.
Qed.

Lemma apply_smooth_pass qa dl cfg (w : World X) :
  exists search,
    calibration_pass (log w) (log (snd (apply_smooth lib qa dl cfg w)))
      (fst (apply_smooth lib qa dl cfg w))
      (Smooth_init (trainer_model w) cfg 0.5 (smooth_all_linears qa)
         (if smooth_sampler qa =? "multi_step"
          then Some MultiStepSampler else None)
         search)
      (Trainer_ptq_loop (trainer_model w) dl "Smooth" (smooth_step qa)) /\
    search
    = if smooth_piecewise_search qa then
        Some {| k_piece := smooth_k_piece qa;
                bits_length := 8;
                search_piece := smooth_search_piece qa;
                search_alpha_min := 0.2;
                search_alpha_max := 0.8;
                search_scale_min := 1.0;
                search_scale_max := 5.0;
                weight_quant_method := "abs_max_channel_wise";
                act_quant_method := "abs_max" |}
      else None.
Proof.
  eexists. split; [| reflexivity].
  unfold apply_smooth, bind, call, get_trainer_model, ret.
  cbn -[String.eqb].
  run_call; [run_call; [run_call |] |]; pass_case.
Qed.

Ltac answer_call :=
  match goal with
  | |- context [lib ?c ?x] =>
      let E := fresh "E" in
      destruct (lib c x) as [[? | ?] ?] eqn:E; cbn [fst snd log ext]
  end.

Ltac answered_by_hyps :=
  rewrite <- ?app_assoc; cbn [app]; rewrite drop_app_length;
  cbn [answered];
  repeat (eexists; split; [eassumption |]); reflexivity.

Lemma apply_shift_answered qa dl cfg (w : World X) :
  answered lib (ext w)
    (drop (length (log w)) (log (snd (apply_shift lib qa dl cfg w))))
    (ext (snd (apply_shift lib qa dl cfg w))).
Proof.
  unfold apply_shift, bind, call, get_trainer_model, ret.
  cbn [fst snd log ext trainer_model].
  answer_call; [answer_call; [answer_call |] |]; answered_by_hyps.
Qed.

Lemma apply_smooth_answered qa dl cfg (w : World X) :
  answered lib (ext w)
    (drop (length (log w)) (log (snd (apply_smooth lib qa dl cfg w))))
    (ext (snd (apply_smooth lib qa dl cfg w))).
Proof.
  unfold apply_smooth, bind, call, get_trainer_model, ret.
  cbn [fst snd log ext trainer_model].
  answer_call; [answer_call; [answer_call |] |]; answered_by_hyps.
Qed.

(** C6.  [apply_shift] and [apply_smooth] each run in one order, against
    the library itself: the transform is built on [trainer.model]; then
    [trainer.ptq_loop] is run, in the library state the constructor left,
    with [max_eval_iters] equal to [shift_step] (description "Shift"),
    respectively [smooth_step] ("Smooth"); and only when the loop has
    returned is [update_weight] called, on the transform that was built and
    in the state the loop left.  Every logged outcome is the library's
    answer, the state at the end is the one the last call left, a call that
    raises ends the pass with its exception, no [update_weight] precedes
    the loop, and a pass that returns has made all three calls. *)
Theorem calibration_loop_then_update_weight qa dl cfg (w : World X) :
  let m := trainer_model w in
  let shift_loop := Trainer_ptq_loop m dl "Shift" (shift_step qa) in
  let smooth_loop := Trainer_ptq_loop m dl "Smooth" (smooth_step qa) in
  let shifted := apply_shift lib qa dl cfg w in
  let smoothed := apply_smooth lib qa dl cfg w in
  (exists sampler,
     calibration_pass (log w) (log (snd shifted)) (fst shifted)
       (Shift_init m cfg sampler (shift_all_linears qa)) shift_loop) /\
  answered lib (ext w) (drop (length (log w)) (log (snd shifted)))
    (ext (snd shifted)) /\
  update_weight_after shift_loop
    (drop (length (log w)) (log (snd shifted))) /\
  (exists sampler search,
     calibration_pass (log w) (log (snd smoothed)) (fst smoothed)
       (Smooth_init m cfg 0.5 (smooth_all_linears qa) sampler search)
       smooth_loop) /\
  answered lib (ext w) (drop (length (log w)) (log (snd smoothed)))
    (ext (snd smoothed)) /\
  update_weight_after smooth_loop
    (drop (length (log w)) (log (snd smoothed))).
Proof.
  cbv zeta.
  pose proof (apply_shift_pass qa dl cfg w) as Hshift.
  destruct (apply_smooth_pass qa dl cfg w) as (search & Hsmooth & _).
  split; [eauto |]. split; [apply apply_shift_answered |]. split.
  { eapply calibration_pass_update_weight_after; [| | exact Hshift]; done. }
  split; [eauto |]. split; [apply apply_smooth_answered |].
  eapply calibration_pass_update_weight_after; [| | exact Hsmooth]; done.
Qed.

(** C8.  The first call of [apply_smooth] builds [Smooth] with a
    [search_function] that is a [PieceWiseSearch] exactly when
    [smooth_piecewise_search] is set, and [None] otherwise.  The search,
    when built, ranges alpha over 0.2 to 0.8 and scale over 1.0 to 5.0,
    with [k_piece] and [search_piece] taken from [smooth_k_piece] and
    [smooth_search_piece]. *)
Theorem apply_smooth_search_function qa dl cfg (w : World X) :
  exists sampler search r rest,
    log (snd (apply_smooth lib qa dl cfg w))
    = log w ++
      (Smooth_init (trainer_model w) cfg 0.5 (smooth_all_linears qa)
         sampler search, r) :: rest /\
    Forall (fun ev => is_ptq_loop (fst ev) || is_update_weight (fst ev)
                      = true) rest /\
    (is_Some search <-> smooth_piecewise_search qa = true) /\
    (smooth_piecewise_search qa = false -> search = None) /\
    (smooth_piecewise_search qa = true ->
     exists s,
       search = Some s /\
       search_alpha_min s = 0.2%Q /\ search_alpha_max s = 0.8%Q /\
       search_scale_min s = 1.0%Q /\ search_scale_max s = 5.0%Q /\
       k_piece s = smooth_k_piece qa /\
       search_piece s = smooth_search_piece qa).
Proof.
  destruct (apply_smooth_pass qa dl cfg w) as (search & Hpass & Hsearch).
  eexists _, search.
  assert (Hflag :
    (is_Some search <-> smooth_piecewise_search qa = true) /\
    (smooth_piecewise_search qa = false -> search = None) /\
    (smooth_piecewise_search qa = true ->
     exists s,
       search = Some s /\
       search_alpha_min s = 0.2%Q /\ search_alpha_max s = 0.8%Q /\
       search_scale_min s = 1.0%Q /\ search_scale_max s = 5.0%Q /\
       k_piece s = smooth_k_piece qa /\
       search_piece s = smooth_search_piece qa)).
  { rewrite Hsearch. destruct (smooth_piecewise_search qa).
    - split; [by split; eauto |]. split; [done |].
      intros _. eexists. by split; [reflexivity |].
    - split; [split; [by intros [? ?] | done] |]. by split. }
  destruct Hpass as [(e & -> & _) | [(t & e & -> & _) |
    [(t & v & e & -> & _) | (t & v & u & -> & _)]]];
    do 2 eexists; (split; [reflexivity |]);
    (split; [| exact Hflag]);
    repeat (apply Forall_cons_2; [reflexivity |]); apply Forall_nil_2.
Qed.

End Calibration.

(** ** Properties of [apply_ptq] *)

Lemma ptq_config_shape :
  dom (type2config ptq_config)
  = {[ nn_Linear; ColumnParallelLinear; RowParallelLinear;
       QuantedLoRALinear ]} /\
  (forall t slc, type2config ptq_config !! t = Some slc ->
                 slc = ptq_observers) /\
  qat_layer_mapping ptq_config
  = <[RowParallelLinear := QuantizedRowParallelLinear]>
      (<[ColumnParallelLinear := QuantizedColumnParallelLinear]>
         DEFAULT_QAT_LAYER_MAPPINGS) /\
  global_config ptq_config = {| activation := None; weight := None |}.
Proof.
  split; [by vm_compute |]. split; [| split; reflexivity].
  intros t slc. destruct t; vm_compute; congruence.
Qed.

Section ApplyPtq.

Context {X : Type}.
Variable lib : Handler X.

Lemma apply_ptq_unfold qa dl :
  apply_ptq lib qa dl
  = (m <- get_trainer_model ;;
     m <- call lib (PTQ_quantize ptq_config m true) ;;
     _ <- set_trainer_model m ;;
     m <- get_trainer_model ;;
     _ <- call lib (Trainer_ptq_loop m dl "PTQ" (ptq_step qa)) ;;
     m <- get_trainer_model ;;
     m <- call lib (PTQ_convert ptq_config m true) ;;
     _ <- set_trainer_model m ;;
     ret VNone).
Proof. reflexivity. Qed.

Ltac run_lib_call :=
  match goal with
  | |- context [lib ?c ?x] =>
      let E := fresh "E" in
      destruct (lib c x) as [[? | ?] ?] eqn:E; cbn -[ptq_config]
  end.

Lemma apply_ptq_pass qa dl (w : World X) :
  ptq_pass (log w) (log (snd (apply_ptq lib qa dl w)))
    (fst (apply_ptq lib qa dl w))
    (trainer_model (snd (apply_ptq lib qa dl w)))
    ptq_config (trainer_model w) dl (ptq_step qa).
Proof.
  rewrite apply_ptq_unfold.
  unfold bind, call, get_trainer_model, set_trainer_model, ret.
  cbn -[ptq_config].
  run_lib_call; [run_lib_call; [run_lib_call |] |];
    rewrite <- ?app_assoc; cbn [app].
  - right; right; right. by eexists _, _, _.
  - right; right; left. by eexists _, _, _.
  - right; left. by eexists _, _.
  - left. by eexists.
Qed.

Lemma apply_ptq_same_object qa dl (w : World X) :
  inplace_contract lib ->
  trainer_model (snd (apply_ptq lib qa dl w)) = trainer_model w /\
  Forall (fun ev => call_model (fst ev) = Some (trainer_model w))
    (drop (length (log w)) (log (snd (apply_ptq lib qa dl w)))).
Proof.
  intros Hinplace. rewrite apply_ptq_unfold.
  unfold bind, call, get_trainer_model, set_trainer_model, ret.
  cbn -[ptq_config].
  run_lib_call; [run_lib_call; [run_lib_call |] |];
    rewrite <- ?app_assoc; cbn [app]; rewrite drop_app_length;
    repeat match goal with
           | H : lib _ _ = (Ok _, _) |- _ =>
               apply Hinplace in H; cbn in H; try subst
           end;
    (split; [done |]);
    repeat (apply Forall_cons_2; [reflexivity |]); apply Forall_nil_2.
Qed.

Lemma apply_ptq_answered qa dl (w : World X) :
  answered lib (ext w)
    (drop (length (log w)) (log (snd (apply_ptq lib qa dl w))))
    (ext (snd (apply_ptq lib qa dl w))).
Proof.
  rewrite apply_ptq_unfold.
  unfold bind, call, get_trainer_model, set_trainer_model, ret.
  cbn [fst snd log ext trainer_model].
  repeat match goal with
         | |- context [lib ?c ?x] =>
             let E := fresh "E" in
             destruct (lib c x) as [[? | ?] ?] eqn:E;
             cbn [fst snd log ext trainer_model]
         end;
    rewrite <- ?app_assoc; cbn [app]; rewrite drop_app_length;
    cbn [answered];
    repeat (eexists; split; [eassumption |]); reflexivity.
Qed.

(** C7.  [apply_ptq] performs three steps in one order, against the
    library itself: [ptq.quantize] on the object [trainer.model] holds,
    with [inplace=True], whose result is assigned to [trainer.model]; then
    [trainer.ptq_loop], in the library state quantizing left, with
    [max_eval_iters] equal to [ptq_step]; then [ptq.convert], by the same
    [ptq], on [trainer.model], with [inplace=True] and in the state the loop
    left, whose result is assigned to [trainer.model].  The configuration of
    [ptq] observes [nn.Linear], the two parallel linear classes and
    [QuantedLoRALinear] with the abs-max observers.  Every logged outcome is
    the library's answer and the state at the end is the one the last call
    left; a call that raises ends the run with its exception.  With a
    library that honours [inplace=True] every call works on the object the
    trainer held at the start, and the trainer still holds it at the
    end. *)
Theorem apply_ptq_steps_in_order qa dl (w : World X) :
  let out := apply_ptq lib qa dl w in
  exists q_config,
    ptq_pass (log w) (log (snd out)) (fst out) (trainer_model (snd out))
      q_config (trainer_model w) dl (ptq_step qa) /\
    answered lib (ext w) (drop (length (log w)) (log (snd out)))
      (ext (snd out)) /\
    dom (type2config q_config)
    = {[ nn_Linear; ColumnParallelLinear; RowParallelLinear;
         QuantedLoRALinear ]} /\
    (forall t slc, type2config q_config !! t = Some slc ->
       slc = {| activation := Some AbsmaxObserver;
                weight := Some AbsMaxChannelWiseWeightObserver |}) /\
    (inplace_contract lib ->
     trainer_model (snd out) = trainer_model w /\
     Forall (fun ev => call_model (fst ev) = Some (trainer_model w))
       (drop (length (log w)) (log (snd out)))).
Proof.
  cbv zeta. exists ptq_config.
  destruct ptq_config_shape as (Hdom & Hpair & _).
  split; [apply apply_ptq_pass |].
  split; [apply apply_ptq_answered |].
  split; [exact Hdom |]. split; [exact Hpair |].
  apply apply_ptq_same_object.
Qed.

End ApplyPtq.

(** ** Properties of [get_ptq_model_config] *)

(** Lines 146-158 once the prefix has been resolved to [p]; the last
    branch reads [model.base_model_prefix] again, from the object that was
    passed in. *)
Lemma get_ptq_model_config_resolved (model : PyModel) (p : string) :
  resolved_base_model_prefix model = Ok p ->
  get_ptq_model_config model
  = if p =? "chatglm" then
      Raise (NotImplementedError (not_supported_error model))
    else if p =? "chatglm_v2" then Ok chatglm_v2_config
    else if p =? "bloom" then Ok bloom_config
    else if p =? "llama" then Ok llama_config
    else
      match attr_base_model_prefix model with
      | Some own => Raise (ValueError (unknown_prefix_error own))
      | None => Raise (AttributeError "base_model_prefix")
      end.
Proof.
  intros Hp. unfold get_ptq_model_config.
  change (if is_PrefixModelForCausalLM model
          then inner <-? getattr "model" (attr_model model) ;;
               getattr "base_model_prefix" (attr_base_model_prefix inner)
          else getattr "base_model_prefix" (attr_base_model_prefix model))
    with (resolved_base_model_prefix model).
  rewrite Hp. cbn [rbind]. unfold str_in. cbn [existsb].
  rewrite orb_false_r.
  destruct (p =? "chatglm"); [done |].
  destruct (p =? "chatglm_v2"); [done |].
  destruct (p =? "bloom"); [done |].
  destruct (p =? "llama"); [done |].
  by destruct (attr_base_model_prefix model).
Qed.

Lemma unsupported_prefix_eqb (p : string) :
  p ∉ supported_prefixes ->
  (p =? "chatglm_v2") = false /\ (p =? "bloom") = false /\
  (p =? "llama") = false.
Proof.
  unfold supported_prefixes. rewrite !not_elem_of_cons.
  intros (H1 & H2 & H3 & _). by rewrite !String.eqb_neq.
Qed.

(** What the function does on each resolved prefix. *)
Lemma get_ptq_model_config_outcomes (model : PyModel) (p : string) :
  resolved_base_model_prefix model = Ok p ->
  (p ∈ supported_prefixes <->
   exists cfg, get_ptq_model_config model = Ok cfg) /\
  (p = "chatglm" ->
   get_ptq_model_config model
   = Raise (NotImplementedError (not_supported_error model))) /\
  (p ∉ supported_prefixes -> p <> "chatglm" ->
   get_ptq_model_config model
   = match attr_base_model_prefix model with
     | Some own => Raise (ValueError (unknown_prefix_error own))
     | None => Raise (AttributeError "base_model_prefix")
     end).
Proof.
  intros Hp. rewrite (get_ptq_model_config_resolved model p Hp).
  split; [| split].
  - split.
    + unfold supported_prefixes. rewrite !elem_of_cons, elem_of_nil.
      intros [-> | [-> | [-> | []]]]; cbn; eauto.
    + intros [cfg Hcfg]. destruct (decide (p ∈ supported_prefixes)) as [|Hn];
        [done |].
      apply unsupported_prefix_eqb in Hn as (E1 & E2 & E3).
      rewrite E1, E2, E3 in Hcfg.
      destruct (p =? "chatglm"); [done |].
      by destruct (attr_base_model_prefix model).
  - by intros ->.
  - intros (E1 & E2 & E3)%unsupported_prefix_eqb Hc%String.eqb_neq.
    by rewrite Hc, E1, E2, E3.
Qed.

(** C3.  Whenever the resolved prefix is "llama", "bloom" or
    "chatglm_v2", [get_ptq_model_config] returns the record of that family:
    llama has [fused_qkv] false and [parallel_ffn] true, bloom has
    [fused_qkv] true and [parallel_ffn] false, chatglm_v2 has both false;
    the record has no other key. *)
Theorem get_ptq_model_config_flags (model : PyModel) (p : string) :
  resolved_base_model_prefix model = Ok p ->
  p ∈ supported_prefixes ->
  exists cfg,
    get_ptq_model_config model = Ok cfg /\
    dom cfg = {[ "fused_qkv"; "parallel_ffn" ]} /\
    (p = "llama" ->
     cfg !! "fused_qkv" = Some false /\ cfg !! "parallel_ffn" = Some true) /\
    (p = "bloom" ->
     cfg !! "fused_qkv" = Some true /\ cfg !! "parallel_ffn" = Some false) /\
    (p = "chatglm_v2" ->
     cfg !! "fused_qkv" = Some false /\ cfg !! "parallel_ffn" = Some false).
Proof.
  intros Hp Hin. rewrite (get_ptq_model_config_resolved model p Hp).
  revert Hin. unfold supported_prefixes.
  rewrite !elem_of_cons, elem_of_nil.
  intros [-> | [-> | [-> | []]]]; cbn [String.eqb Ascii.eqb Bool.eqb];
    eexists; (split; [reflexivity |]);
    (split; [by vm_compute |]); repeat split; done.
Qed.

(** C4, at the input where the code departs from it: a
    [PrefixModelForCausalLM] without a [base_model_prefix] of its own,
    around a model of an unsupported family.  The prefix resolves to "gpt"
    through [model.model] and reaches the last branch, where building the
    message reads [model.base_model_prefix] from the wrapper: the run ends
    in that attribute error and no [ValueError] is raised. *)
Theorem get_ptq_model_config_unknown_prefix_on_wrapper :
  let model := prefix_model None (plain_model "gpt") in
  resolved_base_model_prefix model = Ok "gpt" /\
  ("gpt" ∉ supported_prefixes) /\
  ("gpt" <> "chatglm") /\
  get_ptq_model_config model = Raise (AttributeError "base_model_prefix") /\
  (forall msg, get_ptq_model_config model <> Raise (ValueError msg)).
Proof.
  cbv zeta. split; [reflexivity |]. split.
  { unfold supported_prefixes. rewrite !not_elem_of_cons.
    repeat split; try done. apply not_elem_of_nil. }
  repeat split; done.
Qed.

(** C10.  For a [PrefixModelForCausalLM] the prefix is read from the
    wrapped model, [model.model.base_model_prefix], and the wrapper's own
    attribute plays no part in choosing the branch; for any other model it
    is [model.base_model_prefix].  The message of the unknown-prefix
    [ValueError] is built from [model.base_model_prefix] of the object
    passed in: on a wrapper that is the wrapper's attribute and not the
    prefix that was dispatched on. *)
Theorem get_ptq_model_config_prefix_resolution :
  (forall model inner,
     is_PrefixModelForCausalLM model = true ->
     attr_model model = Some inner ->
     resolved_base_model_prefix model
     = getattr "base_model_prefix" (attr_base_model_prefix inner)) /\
  (forall own own' inner p,
     attr_base_model_prefix inner = Some p ->
     p ∈ "chatglm" :: supported_prefixes ->
     get_ptq_model_config (prefix_model own inner)
     = get_ptq_model_config (prefix_model own' inner)) /\
  (forall model,
     is_PrefixModelForCausalLM model = false ->
     resolved_base_model_prefix model
     = getattr "base_model_prefix" (attr_base_model_prefix model)) /\
  (forall model p own,
     resolved_base_model_prefix model = Ok p ->
     p ∉ "chatglm" :: supported_prefixes ->
     attr_base_model_prefix model = Some own ->
     get_ptq_model_config model
     = Raise (ValueError (unknown_prefix_error own))) /\
  (let model := prefix_model (Some "prefix") (plain_model "gpt") in
   resolved_base_model_prefix model = Ok "gpt" /\
   get_ptq_model_config model
   = Raise (ValueError (unknown_prefix_error "prefix")) /\
   unknown_prefix_error "prefix" <> unknown_prefix_error "gpt").
Proof.
  split; [| split; [| split; [| split]]].
  - intros model inner Hw Hinner. unfold resolved_base_model_prefix.
    by rewrite Hw, Hinner.
  - intros own own' inner p Hp Hin.
    assert (Hres : forall o,
      resolved_base_model_prefix (prefix_model o inner) = Ok p).
    { intros o. unfold resolved_base_model_prefix. cbn. by rewrite Hp. }
    rewrite (get_ptq_model_config_resolved _ p (Hres own)).
    rewrite (get_ptq_model_config_resolved _ p (Hres own')).
    revert Hin. unfold supported_prefixes.
    rewrite !elem_of_cons, elem_of_nil.
    by intros [-> | [-> | [-> | [-> | []]]]].
  - intros model Hw. unfold resolved_base_model_prefix. by rewrite Hw.
  - intros model p own Hp Hnot Hown.
    apply not_elem_of_cons in Hnot as [Hc Hnot].
    destruct (get_ptq_model_config_outcomes model p Hp) as (_ & _ & Hu).
    by rewrite (Hu Hnot Hc), Hown.
  - cbv zeta. by repeat split.
Qed.

(** C5, as stated: a returned record would have three fields.  The record
    returned for a llama model has two. *)
Lemma model_config_three_fields_counterexample :
  get_ptq_model_config (plain_model "llama") = Ok llama_config /\
  size llama_config = 2%nat /\
  ~ (forall model cfg,
       get_ptq_model_config model = Ok cfg -> size cfg = 3%nat).
Proof.
  split; [reflexivity |]. split; [by vm_compute |].
  intros H. specialize (H (plain_model "llama") llama_config eq_refl).
  vm_compute in H. discriminate.
Qed.

(** C5, amended.  Every record [get_ptq_model_config] returns has exactly
    two fields, the booleans [fused_qkv] and [parallel_ffn], and is the
    record of the resolved model-family prefix: two models that resolve to
    the same prefix get the same record. *)
Theorem model_config_two_fields (model : PyModel) (cfg : gmap string bool) :
  get_ptq_model_config model = Ok cfg ->
  size cfg = 2%nat /\
  dom cfg = {[ "fused_qkv"; "parallel_ffn" ]} /\
  exists p,
    resolved_base_model_prefix model = Ok p /\
    p ∈ supported_prefixes /\
    forall model' cfg',
      resolved_base_model_prefix model' = Ok p ->
      get_ptq_model_config model' = Ok cfg' -> cfg' = cfg.
Proof.
  intros Hcfg.
  destruct (resolved_base_model_prefix model) as [p | e] eqn:Hp.
  2: { unfold get_ptq_model_config in Hcfg.
       change (if is_PrefixModelForCausalLM model
               then inner <-? getattr "model" (attr_model model) ;;
                    getattr "base_model_prefix"
                      (attr_base_model_prefix inner)
               else getattr "base_model_prefix"
                      (attr_base_model_prefix model))
         with (resolved_base_model_prefix model) in Hcfg.
       by rewrite Hp in Hcfg. }
  assert (Hin : p ∈ supported_prefixes).
  { apply (get_ptq_model_config_outcomes model p Hp). eauto. }
  assert (Hsame : forall model' cfg',
    resolved_base_model_prefix model' = Ok p ->
    get_ptq_model_config model' = Ok cfg' -> cfg' = cfg).
  { intros model' cfg' Hp' Hcfg'.
    rewrite (get_ptq_model_config_resolved _ p Hp) in Hcfg.
    rewrite (get_ptq_model_config_resolved _ p Hp') in Hcfg'.
    revert Hin Hcfg Hcfg'. unfold supported_prefixes.
    rewrite !elem_of_cons, elem_of_nil.
    intros [-> | [-> | [-> | []]]]; cbn [String.eqb Ascii.eqb Bool.eqb];
      congruence. }
  rewrite (get_ptq_model_config_resolved _ p Hp) in Hcfg.
  revert Hin Hsame Hcfg. unfold supported_prefixes.
  rewrite !elem_of_cons, elem_of_nil.
  intros Hin Hsame Hcfg.
  assert (Hshape : size cfg = 2%nat /\
                   dom cfg = {[ "fused_qkv"; "parallel_ffn" ]}).
  { destruct Hin as [-> | [-> | [-> | []]]];
      cbn [String.eqb Ascii.eqb Bool.eqb] in Hcfg;
      injection Hcfg as <-; split; by vm_compute. }
  destruct Hshape as [Hsize Hdom].
  split; [done |]. split; [done |].
  exists p. split; [done |]. split; [| done].
  unfold supported_prefixes. by rewrite !elem_of_cons, elem_of_nil.
Qed.

(** ** The module on concrete inputs *)

Lemma inplace_lib_contract : inplace_contract inplace_lib.
Proof.
  intros c x r x' H. destruct c; cbn in H; simplify_eq; try done;
    by destruct inplace.
Defined.

Example create_qat_model_w4_run :
  create_qat_model inplace_lib (demo_args "W4") (VObj 2) "float16" demo_world
  = (Ok (VObj 2),
     {| trainer_model := VObj 1; ext := 10%positive;
        log := [(QAT_quantize (qat_config W4 "float16") (VObj 2) true,
                 Ok (VObj 2))] |}).
Proof. reflexivity. Qed.

Example create_qat_model_int8_run :
  create_qat_model inplace_lib (demo_args "INT8") (VObj 2) "float16"
    demo_world
  = (Raise (ValueError qat_type_error), demo_world).
Proof. reflexivity. Qed.

Example apply_shift_run :
  apply_shift inplace_lib (demo_args "W4") (VObj 2) demo_model_config
    demo_world
  = (Ok VNone,
     {| trainer_model := VObj 1; ext := 11%positive;
        log := [(Shift_init (VObj 1) demo_model_config (Some EMASampler) true,
                 Ok (VObj 10));
                (Trainer_ptq_loop (VObj 1) (VObj 2) "Shift" 8, Ok VNone);
                (update_weight (VObj 10), Ok VNone)] |}).
Proof. reflexivity. Qed.

Example apply_shift_failing_loop_run :
  apply_shift failing_loop_lib (demo_args "W4") (VObj 2) demo_model_config
    demo_world
  = (Raise (RuntimeError "loop"),
     {| trainer_model := VObj 1; ext := 11%positive;
        log := [(Shift_init (VObj 1) demo_model_config (Some EMASampler) true,
                 Ok (VObj 10));
                (Trainer_ptq_loop (VObj 1) (VObj 2) "Shift" 8,
                 Raise (RuntimeError "loop"))] |}).
Proof. reflexivity. Qed.

Example apply_smooth_run :
  log (snd (apply_smooth inplace_lib (demo_args "W4") (VObj 2)
              demo_model_config demo_world))
  = [(Smooth_init (VObj 1) demo_model_config 0.5 true (Some MultiStepSampler)
        (Some {| k_piece := 3; bits_length := 8; search_piece := false;
                 search_alpha_min := 0.2; search_alpha_max := 0.8;
                 search_scale_min := 1.0; search_scale_max := 5.0;
                 weight_quant_method := "abs_max_channel_wise";
                 act_quant_method := "abs_max" |}),
      Ok (VObj 10));
     (Trainer_ptq_loop (VObj 1) (VObj 2) "Smooth" 8, Ok VNone);
     (update_weight (VObj 10), Ok VNone)].
Proof. reflexivity. Qed.

Example apply_ptq_run :
  apply_ptq inplace_lib (demo_args "W4") (VObj 2) demo_world
  = (Ok VNone,
     {| trainer_model := VObj 1; ext := 10%positive;
        log := [(PTQ_quantize ptq_config (VObj 1) true, Ok (VObj 1));
                (Trainer_ptq_loop (VObj 1) (VObj 2) "PTQ" 8, Ok VNone);
                (PTQ_convert ptq_config (VObj 1) true, Ok (VObj 1))] |}).
Proof. reflexivity. Qed.

Example ptq_config_types :
  dom (type2config ptq_config)
  = {[ nn_Linear; ColumnParallelLinear; RowParallelLinear;
       QuantedLoRALinear ]} /\
  type2config ptq_config !! nn_Linear
  = Some {| activation := Some AbsmaxObserver;
            weight := Some AbsMaxChannelWiseWeightObserver |}.
Proof. split; by vm_compute. Qed.

Example get_ptq_model_config_chatglm :
  get_ptq_model_config (plain_model "chatglm")
  = Raise (NotImplementedError "chatglm does not support Shift or Smooth.").
Proof. reflexivity. Qed.

Example get_ptq_model_config_plain_gpt :
  get_ptq_model_config (plain_model "gpt")
  = Raise (ValueError
             "Unknown base_model_prefix: gpt. Supported base_model_prefix list: chatglm, bloom, llama.").
Proof. reflexivity. Qed.

(** C1 at mode W4. *)
Lemma create_qat_model_pairing_witness :
  qat_type (demo_args "W4") = qat_name W4 /\
  exists q_config r,
    log (snd (create_qat_model inplace_lib (demo_args "W4") (VObj 2)
                "float16" demo_world))
    = log demo_world ++ [(QAT_quantize q_config (VObj 2) true, r)] /\
    type2config q_config !! LoRALinear
    = Some (documented_pairing W4 "float16") /\
    type2config q_config !! nn_Linear
    = Some (documented_pairing W4 "float16").
Proof.
  split; [reflexivity |].
  destruct (create_qat_model_pairing inplace_lib W4 (demo_args "W4")
              (VObj 2) "float16" demo_world eq_refl)
    as (q_config & r & Hlog & Hlora & Hlinear & _).
  exists q_config, r. repeat split; assumption.
Defined.

(** C9 at the mode string "INT8". *)
Lemma create_qat_model_invalid_untouched_witness :
  (qat_type (demo_args "INT8") ∉ valid_qat_types) /\
  is_Raise (fst (create_qat_model inplace_lib (demo_args "INT8") (VObj 2)
                   "float16" demo_world)) = true /\
  snd (create_qat_model inplace_lib (demo_args "INT8") (VObj 2) "float16"
         demo_world) = demo_world.
Proof.
  assert (Hnot : qat_type (demo_args "INT8") ∉ valid_qat_types).
  { apply (bool_decide_unpack _). reflexivity. }
  split; [exact Hnot |].
  destruct (create_qat_model_invalid_untouched inplace_lib
              (demo_args "INT8") (VObj 2) "float16" demo_world Hnot)
    as (Hraise & Hworld & _).
  split; assumption.
Defined.

(** C3 at a [PrefixModelForCausalLM] around a llama model. *)
Lemma get_ptq_model_config_flags_witness :
  resolved_base_model_prefix (prefix_model None (plain_model "llama"))
  = Ok "llama" /\
  ("llama" ∈ supported_prefixes) /\
  exists cfg,
    get_ptq_model_config (prefix_model None (plain_model "llama")) = Ok cfg /\
    cfg !! "fused_qkv" = Some false /\ cfg !! "parallel_ffn" = Some true.
Proof.
  assert (Hin : "llama" ∈ supported_prefixes).
  { apply (bool_decide_unpack _). reflexivity. }
  split; [reflexivity |]. split; [exact Hin |].
  destruct (get_ptq_model_config_flags
              (prefix_model None (plain_model "llama")) "llama" eq_refl Hin)
    as (cfg & Hcfg & _ & Hllama & _).
  exists cfg. split; [exact Hcfg | exact (Hllama eq_refl)].
Defined.

(** C5, amended, at a bloom model. *)
Lemma model_config_two_fields_witness :
  get_ptq_model_config (plain_model "bloom") = Ok bloom_config /\
  size bloom_config = 2%nat /\
  dom bloom_config = {[ "fused_qkv"; "parallel_ffn" ]}.
Proof.
  split; [reflexivity |].
  destruct (model_config_two_fields (plain_model "bloom") bloom_config
              eq_refl) as (Hsize & Hdom & _).
  split; assumption.
Defined.

(** C7 with the in-place library. *)
Lemma apply_ptq_steps_in_order_witness :
  inplace_contract inplace_lib /\
  trainer_model (snd (apply_ptq inplace_lib (demo_args "W4") (VObj 2)
                        demo_world)) = trainer_model demo_world /\
  Forall (fun ev => call_model (fst ev) = Some (trainer_model demo_world))
    (drop (length (log demo_world))
       (log (snd (apply_ptq inplace_lib (demo_args "W4") (VObj 2)
                    demo_world)))).
Proof.
  split; [exact inplace_lib_contract |].
  destruct (apply_ptq_steps_in_order inplace_lib (demo_args "W4") (VObj 2)
              demo_world) as (q_config & _ & _ & _ & _ & Hsame).
  exact (Hsame inplace_lib_contract).
Defined.

(** ** Further properties of [create_qat_model] *)

Section CreateQatModelMore.

Context {X : Type}.
Variable lib : Handler X.

Lemma create_qat_model_valid_log (t : QatType) qa model dtype (w : World X) :
  qat_type qa = qat_name t ->
  log (snd (create_qat_model lib qa model dtype w))
  = log w ++ [(QAT_quantize (qat_config t dtype) model true,
               fst (lib (QAT_quantize (qat_config t dtype) model true)
                      (ext w)))].
Proof.
  intros Ht. rewrite (create_qat_model_valid lib t) by done.
  unfold call. by destruct (lib _ (ext w)).
Qed.

(** X1.  In each of the three modes the configuration handed to
    [QAT(...).quantize] is paddle's default replacement table with one
    entry added, [LoRALinear] replaced by [QuantedLoRALinear]: no default
    entry is changed, so [nn.Linear], for which line 59 registers the
    quanters, keeps its default replacement [QuantedLinear].  The global
    default stays at no quanter for activations and weights, and
    [QuantedLoRALinear] itself gets no quanter pair. *)
Theorem create_qat_model_layer_mapping (t : QatType) qa model dtype
    (w : World X) :
  qat_type qa = qat_name t ->
  exists q_config r,
    log (snd (create_qat_model lib qa model dtype w))
    = log w ++ [(QAT_quantize q_config model true, r)] /\
    qat_layer_mapping q_config
    = <[LoRALinear := QuantedLoRALinear]> DEFAULT_QAT_LAYER_MAPPINGS /\
    qat_layer_mapping q_config !! LoRALinear = Some QuantedLoRALinear /\
    qat_layer_mapping q_config !! nn_Linear = Some QuantedLinear /\
    global_config q_config = {| activation := None; weight := None |} /\
    type2config q_config !! QuantedLoRALinear = None.
Proof.
  intros Ht. exists (qat_config t dtype). eexists.
  split; [by apply create_qat_model_valid_log |].
  unfold qat_config, add_type_config, add_qat_layer_mapping, QuantConfig_new.
  cbn [qat_layer_mapping global_config type2config].
  split; [done |]. split; [by rewrite lookup_insert_eq |].
  split; [by vm_compute |]. split; [done |].
  by rewrite !lookup_insert_ne, lookup_empty.
Qed.

(** X2.  With a valid [qat_type], [create_qat_model] ends exactly as
    [qat.quantize] does: it returns what the call returned, raises what it
    raised, and leaves the library state the call left.  With a library that
    honours [inplace=True] a returned value is the model that was passed
    in. *)
Theorem create_qat_model_result qa model dtype (w : World X) :
  qat_type qa ∈ valid_qat_types ->
  exists q_config,
    fst (create_qat_model lib qa model dtype w)
    = fst (lib (QAT_quantize q_config model true) (ext w)) /\
    ext (snd (create_qat_model lib qa model dtype w))
    = snd (lib (QAT_quantize q_config model true) (ext w)) /\
    (inplace_contract lib ->
     forall r, fst (create_qat_model lib qa model dtype w) = Ok r ->
               r = model).
Proof.
  intros [t Ht]%valid_qat_types_spec. exists (qat_config t dtype).
  rewrite (create_qat_model_valid lib t) by done. unfold call.
  destruct (lib (QAT_quantize (qat_config t dtype) model true) (ext w))
    as [r x] eqn:E.
  cbn. repeat split. intros Hinplace r' ->.
  exact (Hinplace _ _ _ _ E).
Qed.

(** X3.  [dtype] reaches the library only through the activation quanter.
    In mode W4, which has none, the whole run is the same for every
    [dtype]; in modes A8W8 and A8W4 two different [dtype]s give two
    different configurations. *)
Theorem create_qat_model_dtype qa model (d1 d2 : string) (w : World X) :
  (qat_type qa = "W4" ->
   create_qat_model lib qa model d1 w = create_qat_model lib qa model d2 w) /\
  (qat_type qa = "A8W8" \/ qat_type qa = "A8W4" -> d1 <> d2 ->
   forall c1 c2 r1 r2,
     log (snd (create_qat_model lib qa model d1 w))
     = log w ++ [(QAT_quantize c1 model true, r1)] ->
     log (snd (create_qat_model lib qa model d2 w))
     = log w ++ [(QAT_quantize c2 model true, r2)] ->
     type2config c1 !! nn_Linear <> type2config c2 !! nn_Linear).
Proof.
  split.
  - intros Ht. by rewrite !(create_qat_model_valid lib W4).
  - intros Hmode Hd c1 c2 r1 r2 H1 H2.
    assert (Ht : exists t, qat_type qa = qat_name t /\ t <> W4).
    { destruct Hmode; [by exists A8W8 | by exists A8W4]. }
    destruct Ht as (t & Ht & Hnot).
    rewrite (create_qat_model_valid_log t) in H1, H2 by done.
    apply app_inv_head in H1, H2. simplify_eq.
    unfold qat_config, add_type_config. cbn [type2config].
    rewrite !lookup_insert_eq. destruct t; [| done |]; cbn; congruence.
Qed.

End CreateQatModelMore.

(** ** Further properties of the calibration passes *)

Section CalibrationMore.

Context {X : Type}.
Variable lib : Handler X.

Lemma calibration_pass_first before after out init loop :
  calibration_pass before after out init loop ->
  exists r rest, after = before ++ (init, r) :: rest.
Proof.
  intros [(e & -> & _) | [(t & e & -> & _) |
    [(t & v & e & -> & _) | (t & v & u & -> & _)]]]; by eexists _, _.
Qed.

(** X4.  The sampler handed to the transform is chosen by exact name:
    [Shift] gets an [EMASampler] when [shift_sampler] is "ema" and [Smooth]
    a [MultiStepSampler] when [smooth_sampler] is "multi_step".  Any other
    name is not an error: the constructor is still the first call and it
    gets [None]. *)
Theorem calibration_sampler_selection qa dl cfg (w : World X) :
  (exists sampler r rest,
     log (snd (apply_shift lib qa dl cfg w))
     = log w ++
       (Shift_init (trainer_model w) cfg sampler (shift_all_linears qa), r)
       :: rest /\
     (shift_sampler qa = "ema" -> sampler = Some EMASampler) /\
     (shift_sampler qa <> "ema" -> sampler = None)) /\
  (exists sampler search r rest,
     log (snd (apply_smooth lib qa dl cfg w))
     = log w ++
       (Smooth_init (trainer_model w) cfg 0.5 (smooth_all_linears qa)
          sampler search, r) :: rest /\
     (smooth_sampler qa = "multi_step" -> sampler = Some MultiStepSampler) /\
     (smooth_sampler qa <> "multi_step" -> sampler = None)).
Proof.
  split.
  - destruct (calibration_pass_first _ _ _ _ _
                (apply_shift_pass lib qa dl cfg w)) as (r & rest & Hlog).
    eexists _, r, rest. split; [exact Hlog |].
    split.
    + intros ->%String.eqb_eq. done.
    + intros ->%String.eqb_neq. done.
  - destruct (apply_smooth_pass lib qa dl cfg w) as (search & Hpass & _).
    destruct (calibration_pass_first _ _ _ _ _ Hpass) as (r & rest & Hlog).
    eexists _, search, r, rest. split; [exact Hlog |].
    split.
    + intros ->%String.eqb_eq. done.
    + intros ->%String.eqb_neq. done.
Qed.

(** X5.  Each function reads only its own settings of [quant_args]:
    [create_qat_model] only [qat_type]; [apply_shift] only the three
    [shift_*] fields; [apply_ptq] only [ptq_step]; [apply_smooth] only the
    [smooth_*] fields, of which [smooth_k_piece] and [smooth_search_piece]
    are ignored when [smooth_piecewise_search] is off. *)
Theorem passes_read_own_settings (qa qa' : QuantArgs) :
  (qat_type qa = qat_type qa' ->
   forall model dtype (w : World X),
     create_qat_model lib qa model dtype w
     = create_qat_model lib qa' model dtype w) /\
  (shift_sampler qa = shift_sampler qa' ->
   shift_all_linears qa = shift_all_linears qa' ->
   shift_step qa = shift_step qa' ->
   forall dl cfg (w : World X),
     apply_shift lib qa dl cfg w = apply_shift lib qa' dl cfg w) /\
  (smooth_sampler qa = smooth_sampler qa' ->
   smooth_piecewise_search qa = smooth_piecewise_search qa' ->
   smooth_all_linears qa = smooth_all_linears qa' ->
   smooth_step qa = smooth_step qa' ->
   (smooth_piecewise_search qa = true ->
    smooth_k_piece qa = smooth_k_piece qa' /\
    smooth_search_piece qa = smooth_search_piece qa') ->
   forall dl cfg (w : World X),
     apply_smooth lib qa dl cfg w = apply_smooth lib qa' dl cfg w) /\
  (ptq_step qa = ptq_step qa' ->
   forall dl (w : World X),
     apply_ptq lib qa dl w = apply_ptq lib qa' dl w).
Proof.
  split; [| split; [| split]].
  - intros H model dtype w. unfold create_qat_model. by rewrite H.
  - intros H1 H2 H3 dl cfg w. unfold apply_shift. by rewrite H1, H2, H3.
  - intros H1 H2 H3 H4 H5 dl cfg w. unfold apply_smooth.
    rewrite <- H1, <- H2, <- H3, <- H4.
    destruct (smooth_piecewise_search qa); [| done].
    destruct (H5 eq_refl) as [<- <-]. done.
  - intros H dl w. unfold apply_ptq. by rewrite H.
Qed.

Ltac run_lib :=
  match goal with
  | |- context [lib ?c ?x] =>
      destruct (lib c x) as [[? | ?] ?]; cbn -[String.eqb]
  end.

Lemma apply_shift_keeps_trainer_model qa dl cfg (w : World X) :
  trainer_model (snd (apply_shift lib qa dl cfg w)) = trainer_model w.
Proof.
  unfold apply_shift, bind, call, get_trainer_model, ret.
  cbn -[String.eqb].
  run_lib; [run_lib; [run_lib |] |]; done.
Qed.

Lemma apply_smooth_keeps_trainer_model qa dl cfg (w : World X) :
  trainer_model (snd (apply_smooth lib qa dl cfg w)) = trainer_model w.
Proof.
  unfold apply_smooth, bind, call, get_trainer_model, ret.
  cbn -[String.eqb].
  run_lib; [run_lib; [run_lib |] |]; done.
Qed.

(** X6.  [create_qat_model], [apply_shift] and [apply_smooth] never
    assign [trainer.model]: whatever the library returns or raises, the
    trainer holds the object it held before.  [apply_ptq] does assign it:
    with a library that returns a new object it ends on another model. *)
Theorem trainer_model_rebound_only_by_apply_ptq qa model dtype dl cfg
    (w : World X) :
  trainer_model (snd (create_qat_model lib qa model dtype w))
  = trainer_model w /\
  trainer_model (snd (apply_shift lib qa dl cfg w)) = trainer_model w /\
  trainer_model (snd (apply_smooth lib qa dl cfg w)) = trainer_model w /\
  trainer_model (snd (apply_ptq copying_lib (demo_args "W4") (VObj 2)
                        demo_world))
  <> trainer_model demo_world.
Proof.
  split; [| split; [| split]].
  - unfold create_qat_model, bind, call, ret, raise.
    destruct (qat_type qa =? "A8W8"); [| destruct (qat_type qa =? "W4");
      [| destruct (qat_type qa =? "A8W4")]]; cbn -[String.eqb];
      try run_lib; done.
  - apply apply_shift_keeps_trainer_model.
  - apply apply_smooth_keeps_trainer_model.
  - by vm_compute.
Qed.

End CalibrationMore.

(** ** Further properties of [apply_ptq] *)

Section ApplyPtqMore.

Context {X : Type}.
Variable lib : Handler X.

Lemma apply_ptq_new_events qa dl (w : World X) :
  exists r rest,
    new_events w (snd (apply_ptq lib qa dl w))
    = (PTQ_quantize ptq_config (trainer_model w) true, r) :: rest /\
    Forall (fun ev => forall cfg, call_config (fst ev) = Some cfg ->
                                  cfg = ptq_config) rest.
Proof.
  unfold new_events.
  destruct (apply_ptq_pass lib qa dl w) as
    [(e & -> & _) | [(m1 & e & -> & _) |
      [(m1 & v & e & -> & _) | (m1 & v & m2 & -> & _)]]];
    rewrite drop_app_length; eexists _, _; (split; [reflexivity |]);
    repeat (apply Forall_cons_2;
            [intros cfg Hcfg; cbn [call_config fst] in Hcfg; congruence |]);
    apply Forall_nil_2.
Qed.

(** X7.  Whatever [quant_args] says, [apply_ptq] starts with
    [ptq.quantize] and every configuration it hands to the library
    registers the pair (abs-max activation observer, channel-wise abs-max
    weight observer) for exactly [nn.Linear], [ColumnParallelLinear],
    [RowParallelLinear] and [QuantedLoRALinear], has no global default
    quanter, and is paddle's default replacement table with two entries
    added, the two parallel linear classes replaced by their quantized
    versions. *)
Theorem apply_ptq_observed_layers qa dl (w : World X) :
  exists q_config r rest,
    new_events w (snd (apply_ptq lib qa dl w))
    = (PTQ_quantize q_config (trainer_model w) true, r) :: rest /\
    Forall
      (fun ev =>
         forall cfg, call_config (fst ev) = Some cfg ->
           dom (type2config cfg)
           = {[ nn_Linear; ColumnParallelLinear; RowParallelLinear;
                QuantedLoRALinear ]} /\
           (forall t slc, type2config cfg !! t = Some slc ->
              slc = {| activation := Some AbsmaxObserver;
                       weight := Some AbsMaxChannelWiseWeightObserver |}) /\
           qat_layer_mapping cfg
           = <[RowParallelLinear := QuantizedRowParallelLinear]>
               (<[ColumnParallelLinear := QuantizedColumnParallelLinear]>
                  DEFAULT_QAT_LAYER_MAPPINGS) /\
           global_config cfg = {| activation := None; weight := None |})
      (new_events w (snd (apply_ptq lib qa dl w))).
Proof.
  destruct (apply_ptq_new_events qa dl w) as (r & rest & Hnew & Hrest).
  exists ptq_config, r, rest. split; [exact Hnew |].
  rewrite Hnew. apply Forall_cons_2.
  - intros cfg [= <-]. exact ptq_config_shape.
  - eapply Forall_impl; [exact Hrest |].
    intros ev Hev cfg Hcfg. rewrite (Hev cfg Hcfg). exact ptq_config_shape.
Qed.

(** X8.  How the two configurations meet.  The configuration of
    [create_qat_model] replaces [LoRALinear] by [QuantedLoRALinear] and
    [nn.Linear] by [QuantedLinear].  In the configuration of [apply_ptq]
    the first replacement has an observer pair and the class it replaces
    has none; for the second it is the other way round: [nn.Linear] has a
    pair, [QuantedLinear] has none. *)
Theorem qat_replacements_in_ptq_config qa qa' model dtype dl cfg_qat cfg_ptq
    m m' r r' (w w' : World X) :
  qat_type qa ∈ valid_qat_types ->
  (QAT_quantize cfg_qat m true, r)
    ∈ new_events w (snd (create_qat_model lib qa model dtype w)) ->
  (PTQ_quantize cfg_ptq m' true, r')
    ∈ new_events w' (snd (apply_ptq lib qa' dl w')) ->
  (qat_layer_mapping cfg_qat !! LoRALinear = Some QuantedLoRALinear /\
   is_Some (type2config cfg_ptq !! QuantedLoRALinear) /\
   type2config cfg_ptq !! LoRALinear = None) /\
  (qat_layer_mapping cfg_qat !! nn_Linear = Some QuantedLinear /\
   is_Some (type2config cfg_ptq !! nn_Linear) /\
   type2config cfg_ptq !! QuantedLinear = None).
Proof.
  intros [t Ht]%valid_qat_types_spec Hqat Hptq.
  assert (cfg_qat = qat_config t dtype) as ->.
  { unfold new_events in Hqat.
    rewrite (create_qat_model_valid_log lib t) in Hqat by done.
    rewrite drop_app_length in Hqat.
    apply list_elem_of_singleton in Hqat. by simplify_eq. }
  assert (cfg_ptq = ptq_config) as ->.
  { destruct (apply_ptq_new_events qa' dl w') as (r0 & rest & Hnew & Hrest).
    rewrite Hnew in Hptq. apply elem_of_cons in Hptq as [Heq | Hin].
    - by simplify_eq.
    - rewrite Forall_forall in Hrest. by apply (Hrest _ Hin). }
  unfold qat_config, add_type_config, add_qat_layer_mapping, QuantConfig_new.
  cbn [qat_layer_mapping].
  split; (split; [by vm_compute | split; [vm_compute; eauto | by vm_compute]]).
Qed.

End ApplyPtqMore.

(** ** Further properties of [get_ptq_model_config] *)

Lemma resolved_base_model_prefix_raises model e :
  resolved_base_model_prefix model = Raise e ->
  exists a, e = AttributeError a.
Proof.
  unfold resolved_base_model_prefix, getattr.
  destruct (is_PrefixModelForCausalLM model).
  - destruct (attr_model model) as [inner |]; cbn; [| by intros [= <-]; eauto].
    destruct (attr_base_model_prefix inner); [done |].
    intros [= <-]; eauto.
  - destruct (attr_base_model_prefix model); [done |].
    intros [= <-]; eauto.
Qed.

Lemma get_ptq_model_config_unresolved model e :
  resolved_base_model_prefix model = Raise e ->
  get_ptq_model_config model = Raise e.
Proof.
  intros He. unfold get_ptq_model_config.
  change (if is_PrefixModelForCausalLM model
          then inner <-? getattr "model" (attr_model model) ;;
               getattr "base_model_prefix" (attr_base_model_prefix inner)
          else getattr "base_model_prefix" (attr_base_model_prefix model))
    with (resolved_base_model_prefix model).
  by rewrite He.
Qed.

(** The branch taken on a resolved prefix. *)
Lemma prefix_cases (p : string) :
  p = "chatglm" \/ p = "chatglm_v2" \/ p = "bloom" \/ p = "llama" \/
  ((p ∉ known_prefixes) /\
   (p =? "chatglm") = false /\ (p =? "chatglm_v2") = false /\
   (p =? "bloom") = false /\ (p =? "llama") = false).
Proof.
  destruct (String.eqb_spec p "chatglm"); [tauto |].
  destruct (String.eqb_spec p "chatglm_v2"); [tauto |].
  destruct (String.eqb_spec p "bloom"); [tauto |].
  destruct (String.eqb_spec p "llama"); [tauto |].
  do 4 right. split; [| done].
  unfold known_prefixes, supported_prefixes.
  rewrite !not_elem_of_cons. repeat split; try done. apply not_elem_of_nil.
Qed.

Lemma get_ptq_model_config_ok_inv model cfg :
  get_ptq_model_config model = Ok cfg ->
  (resolved_base_model_prefix model = Ok "chatglm_v2" /\
   cfg = chatglm_v2_config) \/
  (resolved_base_model_prefix model = Ok "bloom" /\ cfg = bloom_config) \/
  (resolved_base_model_prefix model = Ok "llama" /\ cfg = llama_config).
Proof.
  intros Hcfg.
  destruct (resolved_base_model_prefix model) as [p | e] eqn:Hp.
  2: { by rewrite (get_ptq_model_config_unresolved model e Hp) in Hcfg. }
  rewrite (get_ptq_model_config_resolved model p Hp) in Hcfg.
  destruct (prefix_cases p) as
    [-> | [-> | [-> | [-> | (_ & E1 & E2 & E3 & E4)]]]];
    cbn [String.eqb Ascii.eqb Bool.eqb] in Hcfg.
  - done.
  - left. by simplify_eq.
  - right; left. by simplify_eq.
  - right; right. by simplify_eq.
  - rewrite E1, E2, E3, E4 in Hcfg.
    by destruct (attr_base_model_prefix model).
Qed.

Lemma family_configs_distinct :
  chatglm_v2_config <> bloom_config /\
  chatglm_v2_config <> llama_config /\
  bloom_config <> llama_config.
Proof.
  split; [| split]; intros E.
  - apply (f_equal (fun c => c !! "fused_qkv")) in E.
    vm_compute in E. discriminate.
  - apply (f_equal (fun c => c !! "parallel_ffn")) in E.
    vm_compute in E. discriminate.
  - apply (f_equal (fun c => c !! "fused_qkv")) in E.
    vm_compute in E. discriminate.
Qed.

(** X9.  The record identifies the family: two models that get the same
    record resolved to the same prefix.  No record sets both [fused_qkv]
    and [parallel_ffn]. *)
Theorem model_config_identifies_family (m1 m2 : PyModel)
    (cfg : gmap string bool) :
  get_ptq_model_config m1 = Ok cfg ->
  get_ptq_model_config m2 = Ok cfg ->
  resolved_base_model_prefix m1 = resolved_base_model_prefix m2 /\
  ~ (cfg !! "fused_qkv" = Some true /\ cfg !! "parallel_ffn" = Some true).
Proof.
  intros H1 H2.
  destruct family_configs_distinct as (D1 & D2 & D3).
  apply get_ptq_model_config_ok_inv in H1, H2.
  destruct H1 as [[R1 E1] | [[R1 E1] | [R1 E1]]];
    destruct H2 as [[R2 E2] | [[R2 E2] | [R2 E2]]];
    try (exfalso; congruence);
    (split; [congruence |]); subst cfg; vm_compute;
    intros [? ?]; discriminate.
Qed.

(** X10.  Which exception [get_ptq_model_config] raises.  It is
    [NotImplementedError] exactly when the resolved prefix is "chatglm",
    with a message built from [str(model)]; [ValueError] exactly when the
    resolved prefix is none of the four known ones and the object passed in
    has a [base_model_prefix] of its own, which the message names; an
    attribute error exactly when reading the prefix failed, at the start or
    while building that message; and never anything else. *)
Theorem get_ptq_model_config_exceptions (model : PyModel) :
  (forall msg,
     get_ptq_model_config model = Raise (NotImplementedError msg) <->
     resolved_base_model_prefix model = Ok "chatglm" /\
     msg = not_supported_error model) /\
  (forall msg,
     get_ptq_model_config model = Raise (ValueError msg) <->
     exists p own,
       resolved_base_model_prefix model = Ok p /\
       (p ∉ known_prefixes) /\
       attr_base_model_prefix model = Some own /\
       msg = unknown_prefix_error own) /\
  (forall a,
     get_ptq_model_config model = Raise (AttributeError a) <->
     resolved_base_model_prefix model = Raise (AttributeError a) \/
     exists p,
       resolved_base_model_prefix model = Ok p /\
       (p ∉ known_prefixes) /\
       attr_base_model_prefix model = None /\
       a = "base_model_prefix") /\
  (forall msg, get_ptq_model_config model <> Raise (RuntimeError msg)).
Proof.
  assert (Hk : forall q : string,
            bool_decide (q ∈ known_prefixes) = true -> q ∉ known_prefixes ->
            False).
  { intros q Hq Hn. apply Hn. by apply bool_decide_eq_true in Hq. }
  destruct (resolved_base_model_prefix model) as [p | e] eqn:Hp.
  - rewrite (get_ptq_model_config_resolved model p Hp).
    destruct (prefix_cases p) as
      [-> | [-> | [-> | [-> | (Hnot & E1 & E2 & E3 & E4)]]]];
      cbn [String.eqb Ascii.eqb Bool.eqb].
    + split; [| split; [| split]]; intros x.
      * split; [by intros [= <-] | by intros [_ ->]].
      * split; [discriminate |].
        intros (p & own & [= <-] & Hn & _). by destruct (Hk "chatglm" eq_refl Hn).
      * split; [discriminate |].
        intros [? | (p & [= <-] & Hn & _)]; [discriminate |].
        by destruct (Hk "chatglm" eq_refl Hn).
      * discriminate.
    + split; [| split; [| split]]; intros x.
      * split; [discriminate | intros [[= ?] _]; discriminate].
      * split; [discriminate |].
        intros (p & own & [= <-] & Hn & _). by destruct (Hk "chatglm_v2" eq_refl Hn).
      * split; [discriminate |].
        intros [? | (p & [= <-] & Hn & _)]; [discriminate |].
        by destruct (Hk "chatglm_v2" eq_refl Hn).
      * discriminate.
    + split; [| split; [| split]]; intros x.
      * split; [discriminate | intros [[= ?] _]; discriminate].
      * split; [discriminate |].
        intros (p & own & [= <-] & Hn & _). by destruct (Hk "bloom" eq_refl Hn).
      * split; [discriminate |].
        intros [? | (p & [= <-] & Hn & _)]; [discriminate |].
        by destruct (Hk "bloom" eq_refl Hn).
      * discriminate.
    + split; [| split; [| split]]; intros x.
      * split; [discriminate | intros [[= ?] _]; discriminate].
      * split; [discriminate |].
        intros (p & own & [= <-] & Hn & _). by destruct (Hk "llama" eq_refl Hn).
      * split; [discriminate |].
        intros [? | (p & [= <-] & Hn & _)]; [discriminate |].
        by destruct (Hk "llama" eq_refl Hn).
      * discriminate.
    + rewrite E1, E2, E3, E4.
      destruct (attr_base_model_prefix model) as [own |] eqn:Hown;
        (split; [| split; [| split]]); intros x.
      * split; [discriminate |]. intros [[= ->] _]. discriminate.
      * split.
        -- intros [= <-]. by exists p, own.
        -- by intros (p' & own' & _ & _ & [= <-] & ->).
      * split; [discriminate |].
        intros [? | (p' & _ & _ & ? & _)]; discriminate.
      * discriminate.
      * split; [discriminate |]. intros [[= ->] _]. discriminate.
      * split; [discriminate |].
        intros (p' & own' & _ & _ & ? & _). discriminate.
      * split.
        -- intros [= <-]. right. by exists p.
        -- by intros [? | (p' & _ & _ & _ & ->)].
      * discriminate.
  - rewrite (get_ptq_model_config_unresolved model e Hp).
    destruct (resolved_base_model_prefix_raises model e Hp) as [a ->].
    split; [| split; [| split]]; intros x.
    + split; [discriminate | intros [? _]; discriminate].
    + split; [discriminate | intros (p & own & ? & _); discriminate].
    + split.
      * intros [= <-]. by left.
      * intros [[= <-] | (p & ? & _)]; [done | discriminate].
    + discriminate.
Qed.

(** ** How the calibration stages compose *)

Lemma answered_app {X} (lib : Handler X) x (evs1 evs2 : list Event) x' :
  answered lib x (evs1 ++ evs2) x' <->
  exists x1, answered lib x evs1 x1 /\ answered lib x1 evs2 x'.
Proof.
  revert x. induction evs1 as [| [c r] evs1 IH]; intros x; cbn.
  - split.
    + intros H. by exists x.
    + by intros (x1 & -> & H).
  - split.
    + intros (x1 & E & H). apply IH in H as (x2 & H1 & H2).
      exists x2. split; [by exists x1 | done].
    + intros (x2 & (x1 & E & H1) & H2). exists x1. split; [done |].
      apply IH. by exists x2.
Qed.

Lemma raise_ends_run_seq (evs1 evs2 : list Event) v out :
  raise_ends_run evs1 (Ok v) ->
  raise_ends_run evs2 out ->
  raise_ends_run (evs1 ++ evs2) out.
Proof.
  intros [H1 _] [H2 H2']. split.
  - intros i c e Hi. apply lookup_app_Some in Hi as [Hi | [Hge Hi]].
    + destruct (H1 i c e Hi) as [_ ?]. discriminate.
    + destruct (H2 _ c e Hi) as [Hlen ->].
      split; [rewrite length_app; unfold Event in *; lia | done].
  - intros e He. destruct (H2' e He) as [c Hc]. exists c.
    by rewrite last_app, Hc.
Qed.

Lemma stages_summary_raise {X} (lib : Handler X) (w w1 : World X) e
    ds1 ds2 ks1 ks2 :
  stages_summary lib w w1 (Raise e) ds1 ks1 ->
  stages_summary lib w w1 (Raise e) (ds1 ++ ds2) (ks1 ++ ks2).
Proof.
  intros (Hm & evs & Hlog & Hans & Hends & Hon & Hlen & Hpre & Hkind & _).
  split; [done |]. exists evs. split; [done |]. split; [done |].
  split; [done |]. split; [done |].
  split; [rewrite length_app; lia |].
  split; [by apply prefix_app_r |].
  split; [by apply prefix_app_r | done].
Qed.

Lemma stages_summary_seq {X} (lib : Handler X) (w w1 w2 : World X) v out
    ds1 ds2 ks1 ks2 :
  stages_summary lib w w1 (Ok v) ds1 ks1 ->
  stages_summary lib w1 w2 out ds2 ks2 ->
  stages_summary lib w w2 out (ds1 ++ ds2) (ks1 ++ ks2).
Proof.
  intros (Hm1 & evs1 & Hlog1 & Hans1 & Hends1 & Hon1 & _ & _ & _ & Hok1).
  intros (Hm2 & evs2 & Hlog2 & Hans2 & Hends2 & Hon2 & Hlen2 & Hpre2
          & Hkind2 & Hok2).
  destruct (Hok1 v eq_refl) as (Hd1 & Hk1 & Hl1).
  split; [congruence |]. exists (evs1 ++ evs2).
  split; [by rewrite Hlog2, Hlog1, app_assoc |].
  split; [apply answered_app; by exists (ext w1) |].
  split; [by eapply raise_ends_run_seq |].
  split; [apply Forall_app; split; [done | by rewrite <- Hm1] |].
  split; [rewrite !length_app; lia |].
  rewrite omap_app, fmap_app, Hd1, Hk1.
  split; [by apply prefix_app |]. split; [by apply prefix_app |].
  intros v' Hv'. destruct (Hok2 v' Hv') as (Hd2 & Hk2 & Hl2).
  split; [by rewrite Hd2 |].
  split; [by rewrite Hk2 | rewrite !length_app; lia].
Qed.

Section Stages.

Context {X : Type}.
Variable lib : Handler X.

Ltac raise_ends :=
  split;
  [ intros i c0 e0 Hi; destruct i as [| [| [| i]]];
    simplify_eq/=; by split
  | intros e0 He0; simplify_eq; by eexists ].

Lemma calibration_pass_stage (w w' : World X) out descr dl step
    (init : Call) :
  call_model init = Some (trainer_model w) ->
  (forall r, call_kind (init, r) = Construct) ->
  trainer_model w' = trainer_model w ->
  answered lib (ext w) (drop (length (log w)) (log w')) (ext w') ->
  calibration_pass (log w) (log w') out init
    (Trainer_ptq_loop (trainer_model w) dl descr step) ->
  stages_summary lib w w' out [descr] [Construct; Loop; UpdateWeight].
Proof.
  intros Hinit Hk Hm Hans Hpass. split; [done |].
  assert (Hd : forall r, loop_description (init, r) = None).
  { intros r. specialize (Hk r). unfold loop_description, call_kind in *.
    cbn in *. by destruct init. }
  destruct Hpass as [(e & Hlog & ->) | [(t & e & Hlog & ->) |
    [(t & v & e & Hlog & ->) | (t & v & u & Hlog & ->)]]];
    rewrite Hlog, drop_app_length in Hans;
    eexists; (split; [exact Hlog |]); (split; [exact Hans |]);
    (split; [raise_ends |]);
    (split; [repeat (apply Forall_cons_2;
                     [unfold on_model; cbn [fst call_model];
                      try rewrite Hinit; done |]);
             apply Forall_nil_2 |]);
    (split; [cbn; lia |]);
    cbn [omap list_omap fmap list_fmap]; rewrite ?Hd, ?Hk;
    cbn [loop_description call_kind fst];
    (split; [| split; [| intros v' Hv'; try discriminate; by repeat split]]).
  - apply prefix_nil.
  - by apply prefix_cons, prefix_nil.
  - done.
  - by do 2 apply prefix_cons; apply prefix_nil.
  - done.
  - done.
  - done.
  - done.
Qed.

Lemma apply_shift_stage qa dl cfg (w : World X) :
  stages_summary lib w (snd (apply_shift lib qa dl cfg w))
    (fst (apply_shift lib qa dl cfg w)) ["Shift"]
    [Construct; Loop; UpdateWeight].
Proof.
  eapply calibration_pass_stage;
    [| | apply apply_shift_keeps_trainer_model
     | apply apply_shift_answered | apply apply_shift_pass];
    done.
Qed.

Lemma apply_smooth_stage qa dl cfg (w : World X) :
  stages_summary lib w (snd (apply_smooth lib qa dl cfg w))
    (fst (apply_smooth lib qa dl cfg w)) ["Smooth"]
    [Construct; Loop; UpdateWeight].
Proof.
  destruct (apply_smooth_pass lib qa dl cfg w) as (search & Hpass & _).
  eapply calibration_pass_stage;
    [| | apply apply_smooth_keeps_trainer_model
     | apply apply_smooth_answered | exact Hpass]; done.
Qed.

Lemma apply_ptq_stage qa dl (w : World X) :
  inplace_contract lib ->
  stages_summary lib w (snd (apply_ptq lib qa dl w))
    (fst (apply_ptq lib qa dl w)) ["PTQ"] [Quantize; Loop; Convert].
Proof.
  intros Hinplace.
  destruct (apply_ptq_same_object lib qa dl w Hinplace) as [Hm Hon].
  pose proof (apply_ptq_answered lib qa dl w) as Hans.
  split; [done |].
  assert (Hon' : forall evs,
    log (snd (apply_ptq lib qa dl w)) = log w ++ evs ->
    Forall (on_model (trainer_model w)) evs).
  { intros evs Hlog. rewrite Hlog, drop_app_length in Hon.
    eapply Forall_impl; [exact Hon |].
    intros ev Hev. unfold on_model. by rewrite Hev. }
  destruct (apply_ptq_pass lib qa dl w) as
    [(e & Hlog & -> & _) | [(m1 & e & Hlog & -> & _) |
      [(m1 & v & e & Hlog & -> & _) | (m1 & v & m2 & Hlog & -> & _)]]];
    rewrite Hlog, drop_app_length in Hans;
    eexists; (split; [exact Hlog |]); (split; [exact Hans |]);
    (split; [raise_ends |]);
    (split; [by apply Hon' |]);
    (split; [cbn; lia |]);
    cbn [omap list_omap fmap list_fmap loop_description call_kind fst];
    (split; [| split; [| intros v' Hv'; try discriminate; by repeat split]]).
  - apply prefix_nil.
  - by apply prefix_cons, prefix_nil.
  - done.
  - by do 2 apply prefix_cons; apply prefix_nil.
  - done.
  - done.
  - done.
  - done.
Qed.

(** X11.  The three calibration stages run one after the other, on a
    library that honours [inplace=True].  The calls of the whole run are
    the library's answers, each put to it in the state the call before
    left, and the run ends in the state the last call left.  A call that
    raises is the last call of the run and its exception is the run's
    outcome, so no later stage starts.  The trainer ends on the model it
    started with, every call works on that one model, and the loops run in
    the order Shift, Smooth, PTQ.  The calls made are the first of:
    construct, loop, update the weights, twice over, then quantize, loop,
    convert; a run that returns has made all nine. *)
Theorem calibration_stages_compose qa dl cfg (w : World X) :
  inplace_contract lib ->
  let run :=
    (_ <- apply_shift lib qa dl cfg ;;
     _ <- apply_smooth lib qa dl cfg ;;
     apply_ptq lib qa dl) w in
  trainer_model (snd run) = trainer_model w /\
  exists evs,
    log (snd run) = log w ++ evs /\
    answered lib (ext w) evs (ext (snd run)) /\
    ((forall (i : nat) c e,
        evs !! i = Some (c, Raise e) ->
        S i = length evs /\ fst run = Raise e) /\
     (forall e, fst run = Raise e ->
        exists c, last evs = Some (c, Raise e))) /\
    Forall (on_model (trainer_model w)) evs /\
    (length evs <= 9)%nat /\
    omap loop_description evs `prefix_of` ["Shift"; "Smooth"; "PTQ"] /\
    call_kind <$> evs
      `prefix_of` [Construct; Loop; UpdateWeight;
                   Construct; Loop; UpdateWeight;
                   Quantize; Loop; Convert] /\
    (forall v, fst run = Ok v ->
     omap loop_description evs = ["Shift"; "Smooth"; "PTQ"] /\
     call_kind <$> evs
     = [Construct; Loop; UpdateWeight;
        Construct; Loop; UpdateWeight;
        Quantize; Loop; Convert] /\
     length evs = 9%nat).
Proof.
  intros Hinplace. cbv zeta.
  change (stages_summary lib w
    (snd ((_ <- apply_shift lib qa dl cfg ;;
           _ <- apply_smooth lib qa dl cfg ;;
           apply_ptq lib qa dl) w))
    (fst ((_ <- apply_shift lib qa dl cfg ;;
           _ <- apply_smooth lib qa dl cfg ;;
           apply_ptq lib qa dl) w))
    (["Shift"] ++ ["Smooth"] ++ ["PTQ"])
    ([Construct; Loop; UpdateWeight] ++ [Construct; Loop; UpdateWeight]
     ++ [Quantize; Loop; Convert])).
  pose proof (apply_shift_stage qa dl cfg w) as H1.
  unfold bind.
  destruct (apply_shift lib qa dl cfg w) as [[v1 | e1] w1];
    [| by apply stages_summary_raise].
  eapply stages_summary_seq; [exact H1 |].
  pose proof (apply_smooth_stage qa dl cfg w1) as H2.
  destruct (apply_smooth lib qa dl cfg w1) as [[v2 | e2] w2];
    [| by apply stages_summary_raise].
  eapply stages_summary_seq; [exact H2 |].
  by apply apply_ptq_stage.
Qed.

End Stages.

(** ** The further properties on concrete inputs *)

(** X1 at mode A8W4. *)
Lemma create_qat_model_layer_mapping_witness :
  qat_type (demo_args "A8W4") = qat_name A8W4 /\
  exists q_config r,
    log (snd (create_qat_model inplace_lib (demo_args "A8W4") (VObj 2)
                "float16" demo_world))
    = log demo_world ++ [(QAT_quantize q_config (VObj 2) true, r)] /\
    qat_layer_mapping q_config !! LoRALinear = Some QuantedLoRALinear.
Proof.
  split; [reflexivity |].
  destruct (create_qat_model_layer_mapping inplace_lib A8W4
              (demo_args "A8W4") (VObj 2) "float16" demo_world eq_refl)
    as (q_config & r & Hlog & _ & Hmap & _).
  exists q_config, r. split; assumption.
Defined.

(** X2 at mode A8W8 with the in-place library. *)
Lemma create_qat_model_result_witness :
  (qat_type (demo_args "A8W8") ∈ valid_qat_types) /\
  inplace_contract inplace_lib /\
  forall r,
    fst (create_qat_model inplace_lib (demo_args "A8W8") (VObj 2) "float16"
           demo_world) = Ok r ->
    r = VObj 2.
Proof.
  assert (Hin : qat_type (demo_args "A8W8") ∈ valid_qat_types).
  { apply (bool_decide_unpack _). reflexivity. }
  split; [exact Hin |]. split; [exact inplace_lib_contract |].
  destruct (create_qat_model_result inplace_lib (demo_args "A8W8") (VObj 2)
              "float16" demo_world Hin) as (q_config & _ & _ & Hsame).
  exact (Hsame inplace_lib_contract).
Defined.

(** X8 at mode W4 against a PTQ run. *)
Lemma qat_replacements_in_ptq_config_witness :
  (qat_type (demo_args "W4") ∈ valid_qat_types) /\
  exists cfg_qat cfg_ptq,
    (QAT_quantize cfg_qat (VObj 2) true, Ok (VObj 2))
      ∈ new_events demo_world
          (snd (create_qat_model inplace_lib (demo_args "W4") (VObj 2)
                  "float16" demo_world)) /\
    (PTQ_quantize cfg_ptq (VObj 1) true, Ok (VObj 1))
      ∈ new_events demo_world
          (snd (apply_ptq inplace_lib (demo_args "W4") (VObj 2)
                  demo_world)) /\
    qat_layer_mapping cfg_qat !! nn_Linear = Some QuantedLinear /\
    type2config cfg_ptq !! QuantedLinear = None.
Proof.
  assert (Hin : qat_type (demo_args "W4") ∈ valid_qat_types).
  { apply (bool_decide_unpack _). reflexivity. }
  split; [exact Hin |].
  exists (qat_config W4 "float16"), ptq_config.
  assert (Hqat :
    (QAT_quantize (qat_config W4 "float16") (VObj 2) true, Ok (VObj 2))
      ∈ new_events demo_world
          (snd (create_qat_model inplace_lib (demo_args "W4") (VObj 2)
                  "float16" demo_world))).
  { apply elem_of_cons. left. reflexivity. }
  assert (Hptq :
    (PTQ_quantize ptq_config (VObj 1) true, Ok (VObj 1))
      ∈ new_events demo_world
          (snd (apply_ptq inplace_lib (demo_args "W4") (VObj 2)
                  demo_world))).
  { apply elem_of_cons. left. reflexivity. }
  split; [exact Hqat |]. split; [exact Hptq |].
  destruct (qat_replacements_in_ptq_config inplace_lib (demo_args "W4")
              (demo_args "W4") (VObj 2) "float16" (VObj 2) _ _ _ _ _ _
              demo_world demo_world Hin Hqat Hptq)
    as (_ & Hlinear & _ & Hquanted).
  split; assumption.
Defined.

(** X9 at a llama model and a wrapper around one. *)
Lemma model_config_identifies_family_witness :
  get_ptq_model_config (plain_model "llama") = Ok llama_config /\
  get_ptq_model_config (prefix_model None (plain_model "llama"))
  = Ok llama_config /\
  resolved_base_model_prefix (plain_model "llama")
  = resolved_base_model_prefix (prefix_model None (plain_model "llama")).
Proof.
  split; [reflexivity |]. split; [reflexivity |].
  destruct (model_config_identifies_family (plain_model "llama")
              (prefix_model None (plain_model "llama")) llama_config
              eq_refl eq_refl) as [Hsame _].
  exact Hsame.
Defined.

(** X11 with the in-place library. *)
Lemma calibration_stages_compose_witness :
  inplace_contract inplace_lib /\
  trainer_model
    (snd ((_ <- apply_shift inplace_lib (demo_args "W4") (VObj 2)
                  demo_model_config ;;
           _ <- apply_smooth inplace_lib (demo_args "W4") (VObj 2)
                  demo_model_config ;;
           apply_ptq inplace_lib (demo_args "W4") (VObj 2)) demo_world))
  = trainer_model demo_world.
Proof.
  split; [exact inplace_lib_contract |].
  destruct (calibration_stages_compose inplace_lib (demo_args "W4") (VObj 2)
              demo_model_config demo_world inplace_lib_contract)
    as [Hsame _].
  exact Hsame.
Defined.

Example calibration_stages_run :
  omap loop_description
    (log (snd ((_ <- apply_shift inplace_lib (demo_args "W4") (VObj 2)
                       demo_model_config ;;
                _ <- apply_smooth inplace_lib (demo_args "W4") (VObj 2)
                       demo_model_config ;;
                apply_ptq inplace_lib (demo_args "W4") (VObj 2))
                 demo_world)))
  = ["Shift"; "Smooth"; "PTQ"].
Proof. reflexivity. Qed.

Example calibration_stages_failing_loop_run :
  omap loop_description
    (log (snd ((_ <- apply_shift failing_loop_lib (demo_args "W4") (VObj 2)
                       demo_model_config ;;
                _ <- apply_smooth failing_loop_lib (demo_args "W4") (VObj 2)
                       demo_model_config ;;
                apply_ptq failing_loop_lib (demo_args "W4") (VObj 2))
                 demo_world)))
  = ["Shift"].
Proof. reflexivity. Qed.
